(** * toolbox-manager: a shallow embedding of [toolbox.py] and [manager.py]

    The development follows the source files:
    - [toolbox.py]: name validation ([TOOL_RE], [validate_tool]), the atomic
      file writer ([atomic_write]), the registry listing ([list_tools]), the
      two embedded C templates, and the commands [cmd_create] / [cmd_build];
    - the C program held by [dispatcher_template] (its [main], [dispatch],
      [tool_help] and [help] functions), modelled as functions on [argv];
    - [manager.py]: the simpler variant ([is_valid_tool_name], the listing
      of [construct], its in-place writes).

    Python [str] values are modelled as [string] (8-bit characters); the
    three directories under [ROOT] are finite maps from file names to
    nodes; [die] and uncaught exceptions are outcomes of a small state and
    error monad over the file system. *)

From stdpp Require Import gmap strings list sorting.
From Stdlib Require Import Ascii String.

Open Scope string_scope.

(* ===================================================================== *)
(** * Characters and strings *)
(* ===================================================================== *)

Definition LF : ascii := "010"%char.
Definition DQ : ascii := "034"%char.
Definition SLASH : ascii := "/"%char.

(** [lo <= c <= hi] on character codes, as in a class range [lo-hi]. *)
Definition in_range (lo hi c : ascii) : bool :=
  (N_of_ascii lo <=? N_of_ascii c)%N && (N_of_ascii c <=? N_of_ascii hi)%N.

Definition is_lower (c : ascii) : bool := in_range "a" "z" c.
Definition is_upper (c : ascii) : bool := in_range "A" "Z" c.
Definition is_digit (c : ascii) : bool := in_range "0" "9" c.
Definition is_underscore (c : ascii) : bool := Ascii.eqb c "_".

(** Python [s.endswith(suf)]. *)
Definition endswith (s suf : string) : bool :=
  let n := String.length s in
  let k := String.length suf in
  (k <=? n)%nat && String.eqb (substring (n - k) k s) suf.

Fixpoint string_forallb (f : ascii → bool) (s : string) : bool :=
  match s with
  | EmptyString => true
  | String c s' => f c && string_forallb f s'
  end.

(** Index of the last occurrence of [c] in [s] ([str.rfind] / [strrchr]). *)
Fixpoint rfind (c : ascii) (s : string) : option nat :=
  match s with
  | EmptyString => None
  | String a s' =>
      match rfind c s' with
      | Some i => Some (S i)
      | None => if Ascii.eqb a c then Some 0%nat else None
      end
  end.

Definition join_lines (ls : list string) : string := String.concat (String LF "") ls.

(* ===================================================================== *)
(** * The fragment of Python's [re] used by the two validators *)
(* ===================================================================== *)

Module Re.

(** Pattern items. [Eol] is Python's [$] without [re.MULTILINE]: it
    matches at the end of the string and also just before a newline that
    is the last character of the string. *)
Inductive atom :=
| Bol
| Eol
| Cls (c : ascii → bool)
| Star (c : ascii → bool).

Definition at_eol (s : string) : bool :=
  match s with
  | EmptyString => true
  | String c EmptyString => Ascii.eqb c LF
  | _ => false
  end.

(** [matches p start s]: the pattern [p] matches a prefix of the rest
    [s] of the subject; [start] tells whether [s] is the whole subject.
    The star tries every number of repetitions (backtracking). *)
Fixpoint matches (p : list atom) (start : bool) (s : string) : bool :=
  match p with
  | [] => true
  | Bol :: p' => start && matches p' start s
  | Eol :: p' => at_eol s && matches p' start s
  | Cls c :: p' =>
      match s with
      | String a s' => c a && matches p' false s'
      | EmptyString => false
      end
  | Star c :: p' =>
      (fix star (start : bool) (s : string) {struct s} : bool :=
         match s with
         | String a s' => (c a && star false s') || matches p' start s
         | EmptyString => matches p' start s
         end) start s
  end.

(** [pattern.match(s)]: a match anchored at position 0; truthy iff it exists. *)
Definition re_match (p : list atom) (s : string) : bool := matches p true s.

End Re.

(* ===================================================================== *)
(** * toolbox.py: core configuration *)
(* ===================================================================== *)

Definition APP_NAME : string := "toolbox".
Definition VERSION : string := "2.1.0".

Definition word_char (c : ascii) : bool := is_lower c || is_digit c || is_underscore c.

(** [TOOL_RE = re.compile(r"^[a-z][a-z0-9_]*$")] *)
Definition TOOL_RE : list Re.atom :=
  [Re.Bol; Re.Cls is_lower; Re.Star word_char; Re.Eol].

Definition CFLAGS : list string :=
  ["-Wall"; "-Wextra"; "-Werror"; "-O2"; "-fstack-protector-strong";
   "-D_FORTIFY_SOURCE=2"; "-fPIE"].
Definition LDFLAGS : list string := ["-pie"].

(** The identifier grammar in words: a lowercase letter followed by
    lowercase letters, digits and underscores, and nothing else. *)
Definition ident (s : string) : Prop :=
  ∃ c r, s = String c r ∧ is_lower c = true ∧ string_forallb word_char r = true.

Definition identb (s : string) : bool :=
  match s with
  | String c r => is_lower c && string_forallb word_char r
  | EmptyString => false
  end.

(* ===================================================================== *)
(** * The file system under [ROOT] *)
(* ===================================================================== *)

(** [ROOT / "tools"], [ROOT / "build"], [ROOT / "bin"], and everything
    outside of them (flattened: one name per outside path). The state is
    the one that [ensure_dirs] leaves: the three directories exist. *)
Inductive root := TOOLS | BUILD | BIN | ELSEWHERE.

Record path := Path { parent : root; name : string }.
Notation "d // n" := (Path d n) (at level 35, format "d  //  n").

Inductive node :=
| File (data : string)
| Link (target : path)
| Dir.

Inductive exn :=
| FileExistsError
| FileNotFoundError
| IsADirectoryError
| NotADirectoryError
| OSError
| CalledProcessError
| PermissionError.

Record world := World {
  tools_dir : gmap string node;
  build_dir : gmap string node;
  bin_dir : gmap string node;
  elsewhere : gmap string node;
  console : list string
}.

Definition get_dir (d : root) (w : world) : gmap string node :=
  match d with
  | TOOLS => tools_dir w
  | BUILD => build_dir w
  | BIN => bin_dir w
  | ELSEWHERE => elsewhere w
  end.

Definition set_dir (d : root) (m : gmap string node) (w : world) : world :=
  match d with
  | TOOLS => World m (build_dir w) (bin_dir w) (elsewhere w) (console w)
  | BUILD => World (tools_dir w) m (bin_dir w) (elsewhere w) (console w)
  | BIN => World (tools_dir w) (build_dir w) m (elsewhere w) (console w)
  | ELSEWHERE => World (tools_dir w) (build_dir w) (bin_dir w) m (console w)
  end.

(** [os.lstat]: the node a path names, symlinks not followed. *)
Definition lstat (w : world) (p : path) : option node := get_dir (parent p) w !! name p.

(** The kernel gives up with ELOOP after this many symlinks. *)
Definition MAXSYMLINKS : nat := 40.

(** [os.stat]: follows symlinks; [None] for a missing target or a loop. *)
Fixpoint stat_fuel (fuel : nat) (w : world) (p : path) : option node :=
  match lstat w p with
  | Some (Link q) =>
      match fuel with
      | O => None
      | S fuel' => stat_fuel fuel' w q
      end
  | o => o
  end.

Definition stat (w : world) (p : path) : option node := stat_fuel MAXSYMLINKS w p.

(** [Path.exists()]: [os.stat] succeeded. *)
Definition path_exists (w : world) (p : path) : bool :=
  match stat w p with Some _ => true | None => false end.

(* ===================================================================== *)
(** * Outcomes: return, [sys.exit(1)] from [die], uncaught exception *)
(* ===================================================================== *)

Inductive outcome (A : Type) :=
| Ok (a : A)
| Died (msg : string)
| Raised (e : exn).
Arguments Ok {A} a.
Arguments Died {A} msg.
Arguments Raised {A} e.

(** A command is a function from the world to an outcome and the world it
    leaves behind; effects made before a failure stay. *)
Definition M (A : Type) : Type := world → outcome A * world.

Definition ret {A} (a : A) : M A := λ w, (Ok a, w).

Definition bind {A B} (m : M A) (k : A → M B) : M B :=
  λ w, match m w with
       | (Ok a, w') => k a w'
       | (Died msg, w') => (Died msg, w')
       | (Raised e, w') => (Raised e, w')
       end.

Notation "'let*' x ':=' m 'in' k" := (bind m (λ x, k))
  (at level 10, x name, m at level 100, k at level 200, only parsing).
Notation "'do' m 'then' k" := (bind m (λ _, k))
  (at level 10, m at level 100, k at level 200, only parsing).

Definition raise {A} (e : exn) : M A := λ w, (Raised e, w).
Definition get {A} (f : world → A) : M A := λ w, (Ok (f w), w).

(** [print(s)] *)
Definition print (s : string) : M unit :=
  λ w, (Ok tt, World (tools_dir w) (build_dir w) (bin_dir w) (elsewhere w) (console w ++ [s])).

(** [die(msg)]: message on stderr, then [sys.exit(1)]. *)
Definition die {A} (msg : string) : M A := λ w, (Died ("[!] " ++ msg), w).

(** [for x in xs: body(x)] *)
Fixpoint for_each {A} (xs : list A) (body : A → M unit) : M unit :=
  match xs with
  | [] => ret tt
  | x :: xs' => do body x then for_each xs' body
  end.

(** How the child process of a compiler command line ends. *)
Inductive cc_exit :=
| Built (binary : string)  (* status 0: the linker has written this executable *)
| CompileError             (* a source file is rejected; the linker is not started *)
| LinkError                (* the linker fails, and removes its output file *)
| NotFound                 (* the program cannot be found: no process is started *)
| NotExecutable.           (* the program may not be executed: no process is started *)

(** The part of the machine the program does not control. *)
Record host := Host {
  home : string;                             (* os.path.expanduser("~") *)
  which : string → option string;            (* shutil.which *)
  tmp_names : list string;                   (* the names tempfile draws, in order *)
  cc_run : list string → world → cc_exit     (* the compiler command line, run on a file system *)
}.

(** [str(path)] *)
Definition root_str (h : host) (d : root) : string :=
  match d with
  | TOOLS => home h ++ "/.tools/" ++ APP_NAME ++ "/tools"
  | BUILD => home h ++ "/.tools/" ++ APP_NAME ++ "/build"
  | BIN => home h ++ "/.tools/" ++ APP_NAME ++ "/bin"
  | ELSEWHERE => ""
  end.
Definition path_str (h : host) (p : path) : string :=
  match parent p with
  | ELSEWHERE => name p
  | d => root_str h d ++ "/" ++ name p
  end.

(* ===================================================================== *)
(** * toolbox.py: utilities *)
(* ===================================================================== *)

(** [find_cc]: the first of gcc, clang that [shutil.which] finds. *)
Definition find_cc (h : host) : M string :=
  match which h "gcc" with
  | Some p => ret p
  | None =>
      match which h "clang" with
      | Some p => ret p
      | None => die "No C compiler found (gcc/clang)"
      end
  end.

(** [validate_tool] *)
Definition validate_tool (name : string) : M string :=
  if Re.re_match TOOL_RE name then ret name
  else die "Invalid tool name (lowercase, start with letter)".

(** ** [atomic_write] as a sequence of system calls on one directory *)

Inductive fsop :=
| Create (tmp : string)                  (* open(tmp, O_CREAT|O_EXCL), by NamedTemporaryFile *)
| Append (tmp : string) (chunk : string) (* one write(2) on the open temporary file *)
| Replace (src dst : string).            (* os.replace(src, dst): rename(2) *)

Definition fsop_step (o : fsop) (m : gmap string node) : exn + gmap string node :=
  match o with
  | Create tmp =>
      match m !! tmp with
      | None => inr (<[tmp := File ""]> m)
      | Some _ => inl FileExistsError
      end
  | Append tmp chunk =>
      match m !! tmp with
      | Some (File d) => inr (<[tmp := File (d ++ chunk)]> m)
      | _ => inl OSError
      end
  | Replace src dst =>
      match m !! src with
      | None => inl FileNotFoundError
      | Some n =>
          if decide (src = dst) then inr m
          else match n, m !! dst with
               | Dir, Some (File _) | Dir, Some (Link _) => inl NotADirectoryError
               | File _, Some Dir | Link _, Some Dir => inl IsADirectoryError
               | _, _ => inr (<[dst := n]> (delete src m))
               end
      end
  end.

(** Runs the calls in order; stops at the first one that fails and keeps
    what the earlier ones did. *)
Fixpoint run_ops (ops : list fsop) (m : gmap string node) : option exn * gmap string node :=
  match ops with
  | [] => (None, m)
  | o :: ops' =>
      match fsop_step o m with
      | inl e => (Some e, m)
      | inr m' => run_ops ops' m'
      end
  end.

(** The name [NamedTemporaryFile] ends up with: the first drawn name that
    is free in the directory. *)
Definition pick_tmp (cands : list string) (m : gmap string node) : option string :=
  List.find (λ n, bool_decide (m !! n = None)) cands.

(** The calls of one [atomic_write]; [chunks] are the pieces in which the
    buffered data reaches the file. *)
Definition atomic_write_ops (tmp target : string) (chunks : list string) : list fsop :=
  [Create tmp] ++ (Append tmp <$> chunks) ++ [Replace tmp target].

(** [atomic_write]. The calls are those of a run in which [write] and
    [close] succeed (no full disk, no I/O error); the runs that stop
    earlier are the prefixes of [atomic_write_ops]. *)
Definition atomic_write (h : host) (p : path) (data : string) : M unit :=
  λ w,
    let m := get_dir (parent p) w in
    match pick_tmp (tmp_names h) m with
    | None => (Raised FileExistsError, w)
    | Some tmp =>
        match run_ops (atomic_write_ops tmp (name p) [data]) m with
        | (None, m') => (Ok tt, set_dir (parent p) m' w)
        | (Some e, m') => (Raised e, set_dir (parent p) m' w)
        end
    end.

(** ** [list_tools] *)

(** [Path.stem]: the name without its last suffix. *)
Definition stem (n : string) : string :=
  match rfind "." n with
  | Some i => if (0 <? i)%nat && (i <? String.length n - 1)%nat then substring 0 i n else n
  | None => n
  end.

(** [dir.glob("*.c")]: the names in the directory that end in [.c]. *)
Definition glob_c (m : gmap string node) : list string :=
  filter (λ n, endswith n ".c" = true) (map_to_list m).*1.

(** [sorted] on a list of [str]. *)
Definition sorted (l : list string) : list string := merge_sort String.le l.

Definition list_tools (w : world) : list string := sorted (stem <$> glob_c (tools_dir w)).

(* ===================================================================== *)
(** * toolbox.py: the embedded C templates *)
(* ===================================================================== *)

Definition dq : string := String DQ "".

Definition tool_template (name : string) : string :=
  join_lines
    [ "#include <stdio.h>";
      "";
      "/* Optional:";
      " * const char *" ++ name ++ "_desc = " ++ dq ++ "Description" ++ dq ++ ";";
      " */";
      "";
      "const char *" ++ name ++ "_help =";
      "    " ++ dq ++ "Usage: " ++ name ++ " [args]\n" ++ dq;
      "    " ++ dq ++ "Description: " ++ name ++ " tool.\n" ++ dq;
      "    " ++ dq ++ "Options:\n" ++ dq;
      "    " ++ dq ++ "  -h, --help  Show this help.\n" ++ dq ++ ";";
      "";
      "int " ++ name ++ "_main(int argc, char **argv) {";
      "    (void)argc; (void)argv;";
      "    printf(" ++ dq ++ "Running " ++ name ++ "\n" ++ dq ++ ");";
      "    return 0;";
      "}";
      "" ].

Definition dispatcher_decls (t : string) : list string :=
  [ "int " ++ t ++ "_main(int, char**);";
    "extern const char *" ++ t ++ "_desc __attribute__((weak));";
    "extern const char *" ++ t ++ "_help __attribute__((weak));" ].

Definition dispatcher_entry (t : string) : string :=
  "    {" ++ dq ++ t ++ dq ++ ", " ++ t ++ "_main, &" ++ t ++ "_desc, &" ++ t ++ "_help},".

Definition dispatcher_template (tools : list string) : string :=
  let decls := List.concat (dispatcher_decls <$> tools) in
  let entries := dispatcher_entry <$> tools in
  join_lines
    [ "";
      "#include <stdio.h>";
      "#include <string.h>";
      "#include <libgen.h>";
      "";
      "#define APP " ++ dq ++ APP_NAME ++ dq;
      "#define VER " ++ dq ++ VERSION ++ dq;
      "";
      "struct Tool {";
      "    const char *name;";
      "    int (*fn)(int,char**);";
      "    const char **desc;";
      "    const char **help;";
      "};";
      "";
      join_lines decls;
      "";
      "static struct Tool tools[] = {";
      join_lines entries;
      "    {NULL,NULL,NULL,NULL}";
      "};";
      "";
      "static void help() {";
      "    printf(" ++ dq ++ "%s v%s\n" ++ dq ++ ", APP, VER);";
      "    printf(" ++ dq ++ "Usage: %s <cmd> [args]\n\n" ++ dq ++ ", APP);";
      "    for (int i=0; tools[i].name; i++) {";
      "        const char *d = (tools[i].desc && *tools[i].desc) ? *tools[i].desc : " ++ dq ++ dq ++ ";";
      "        printf(" ++ dq ++ "  %-16s %s\n" ++ dq ++ ", tools[i].name, d);";
      "    }";
      "}";
      "";
      "static void tool_help(const char *name) {";
      "    for (int i=0; tools[i].name; i++) {";
      "        if (!strcmp(name, tools[i].name)) {";
      "            if (tools[i].desc && *tools[i].desc)";
      "                printf(" ++ dq ++ "%s - %s\n" ++ dq ++ ", name, *tools[i].desc);";
      "            if (tools[i].help && *tools[i].help) {";
      "                printf(" ++ dq ++ "%s\n" ++ dq ++ ", *tools[i].help);";
      "            } else {";
      "                printf(" ++ dq ++ "Usage: %s [args]\n" ++ dq ++ ", name);";
      "            }";
      "            return;";
      "        }";
      "    }";
      "    printf(" ++ dq ++ "Unknown command: %s\n" ++ dq ++ ", name);";
      "}";
      "";
      "static int dispatch(const char *name, int argc, char **argv) {";
      "    if (argc > 1 && (!strcmp(argv[1], " ++ dq ++ "--help" ++ dq ++ ") || !strcmp(argv[1], " ++ dq ++ "-h" ++ dq ++ "))) {";
      "        tool_help(name);";
      "        return 0;";
      "    }";
      "    for (int i=0; tools[i].name; i++)";
      "        if (!strcmp(name, tools[i].name))";
      "            return tools[i].fn(argc, argv);";
      "    fprintf(stderr, " ++ dq ++ "Unknown command: %s\n" ++ dq ++ ", name);";
      "    return 1;";
      "}";
      "";
      "int main(int argc, char **argv) {";
      "    char *prog = basename(argv[0]);";
      "";
      "    if (argc > 1 && (!strcmp(argv[1], " ++ dq ++ "--help" ++ dq ++ ") || !strcmp(argv[1], " ++ dq ++ "-h" ++ dq ++ "))) {";
      "        help(); return 0;";
      "    }";
      "";
      "    if (!strcmp(prog, APP)) {";
      "        if (argc < 2) { help(); return 0; }";
      "        return dispatch(argv[1], argc-1, argv+1);";
      "    }";
      "";
      "    return dispatch(prog, argc, argv);";
      "}";
      "" ].

(* ===================================================================== *)
(** * toolbox.py: commands *)
(* ===================================================================== *)

(** [Path.unlink()]: removes a file or a symlink, not a directory. *)
Definition unlink (p : path) : M unit :=
  λ w, match lstat w p with
       | None => (Raised FileNotFoundError, w)
       | Some Dir => (Raised IsADirectoryError, w)
       | Some _ => (Ok tt, set_dir (parent p) (delete (name p) (get_dir (parent p) w)) w)
       end.

(** [Path.symlink_to(target)]: fails when the name is taken, whatever
    holds it. The node keeps the file that the stored text leads to from
    the link's directory, see [link_to]. *)
Definition symlink_to (p target : path) : M unit :=
  λ w, match lstat w p with
       | Some _ => (Raised FileExistsError, w)
       | None => (Ok tt, set_dir (parent p) (<[name p := Link target]> (get_dir (parent p) w)) w)
       end.

(** [True] for a path text that starts at the root directory. *)
Definition is_absolute (s : string) : bool :=
  match s with
  | String c _ => Ascii.eqb c SLASH
  | EmptyString => false
  end.

(** The file that a symlink in directory [d] leads to when it was made
    with the text [str(target)]: an absolute text names [target] itself,
    a relative one is read from [d], the directory of the link, and
    names a path outside of the three directories (a relative text is
    taken to have no [..] component that leads back into them). *)
Definition link_to (h : host) (d : root) (target : path) : path :=
  if is_absolute (path_str h target) then target
  else ELSEWHERE // (root_str h d ++ "/" ++ path_str h target).

(** Where a path leads when the symlinks at its end are followed; the
    last path may be missing. [None]: a loop. *)
Fixpoint follow_links (fuel : nat) (w : world) (p : path) : option path :=
  match lstat w p with
  | Some (Link q) =>
      match fuel with
      | O => None
      | S fuel' => follow_links fuel' w q
      end
  | _ => Some p
  end.

Definition put (p : path) (n : node) (w : world) : world :=
  set_dir (parent p) (<[name p := n]> (get_dir (parent p) w)) w.

(** The output file of a successful link, as GNU ld (the linker of gcc
    and of clang) opens it: a name whose [stat] gives a non-empty file is
    unlinked first when it is a regular file or a symlink, then the name
    is opened for writing, which follows a symlink that is still there. *)
Definition write_output (out : path) (binary : string) (w : world) : world :=
  match lstat w out with
  | Some Dir => w
  | Some (Link _) =>
      match stat w out with
      | None | Some (File EmptyString) =>
          match follow_links MAXSYMLINKS w out with
          | Some q => put q (File binary) w
          | None => w
          end
      | Some _ => put out (File binary) w
      end
  | _ => put out (File binary) w
  end.

(** The linker's clean-up after a failure: the output name is removed
    when it is a regular file or a symlink. What a failing linker wrote
    through a symlink before is not kept track of. *)
Definition remove_output (out : path) (w : world) : world :=
  match lstat w out with
  | Some (File _) | Some (Link _) =>
      set_dir (parent out) (delete (name out) (get_dir (parent out) w)) w
  | _ => w
  end.

(** [subprocess.check_call(cmd)] for the compiler command line; [out] is
    the file that the command names after [-o]. Exit status 0 returns;
    any other status raises [CalledProcessError]; a program that cannot
    be started raises the error of [exec]. *)
Definition check_call (h : host) (cmd : list string) (out : path) : M unit :=
  λ w, match cc_run h cmd w with
       | Built binary => (Ok tt, write_output out binary w)
       | CompileError => (Raised CalledProcessError, w)
       | LinkError => (Raised CalledProcessError, remove_output out w)
       | NotFound => (Raised FileNotFoundError, w)
       | NotExecutable => (Raised PermissionError, w)
       end.

Definition cmd_create (h : host) (name : string) : M unit :=
  let* name := validate_tool name in
  let path := TOOLS // (name ++ ".c") in
  let* ex := get (λ w, path_exists w path) in
  if ex : bool then die "Tool already exists"
  else
    do atomic_write h path (tool_template name) then
    print ("[+] Created " ++ path_str h path).

(** The loop that ends [cmd_build]: one entry point per name. *)
Definition install_links (out : path) (names : list string) : M unit :=
  for_each names (λ t,
    let link := BIN // t in
    let* ex := get (λ w, path_exists w link) in
    do (if ex : bool then unlink link else ret tt) then
    symlink_to link out).

Definition cmd_build (h : host) : M unit :=
  let* cc := find_cc h in
  let* tools := get list_tools in
  match tools with
  | [] => die "No tools to build"
  | _ =>
      let main_c := BUILD // "main.c" in
      do atomic_write h main_c (dispatcher_template tools) then
      let out := BUILD // APP_NAME in
      let cmd := ([cc] ++ CFLAGS ++ ["-o"; path_str h out; path_str h main_c]
                  ++ ((λ t, path_str h (TOOLS // (t ++ ".c"))) <$> tools)
                  ++ LDFLAGS)%list in
      do print "[*] Building..." then
      do check_call h cmd out then
      do install_links (link_to h BIN out) (tools ++ [APP_NAME])%list then
      do print "[+] Build complete" then
      print ("    Add to PATH: export PATH=" ++ dq ++ root_str h BIN ++ ":$PATH" ++ dq)
  end.

(* ===================================================================== *)
(** * The C program of [dispatcher_template] *)
(* ===================================================================== *)

Module Dispatcher.

(** What the linked tool modules provide for a tool name: the values of
    the weak symbols [<t>_desc] and [<t>_help]; [None] when the symbol is
    undefined (its address is null) or holds a null pointer. *)
Record linkage := Linkage {
  desc_of : string → option string;
  help_of : string → option string
}.

(** [struct Tool]; the [fn] field of the entry for [t] is [<t>_main]. *)
Record Tool := MkTool {
  t_name : string;
  t_desc : option string;
  t_help : option string
}.

(** How a run of the binary ends: [main] returns a status, or it returns
    whatever the entry function [<fn>_main] returns on [argv]. *)
Inductive finish :=
| Return (status : Z)
| Enter (fn : string) (argv : list string).

Record run := Run {
  r_stdout : string;
  r_stderr : string;
  r_finish : finish
}.

(** [strcmp(a, "--help") == 0 || strcmp(a, "-h") == 0] *)
Definition is_help_flag (a : string) : bool := String.eqb a "--help" || String.eqb a "-h".

(** [argc > 1 && (is argv[1] a help flag)] *)
Definition help_requested (argv : list string) : bool :=
  match argv with
  | _ :: a :: _ => is_help_flag a
  | _ => false
  end.

Fixpoint rstrip_slash (s : string) : string :=
  match s with
  | EmptyString => EmptyString
  | String c s' =>
      match rstrip_slash s' with
      | EmptyString => if Ascii.eqb c SLASH then EmptyString else String c EmptyString
      | r => String c r
      end
  end.

Definition after_last_slash (s : string) : string :=
  match rfind SLASH s with
  | Some i => substring (S i) (String.length s - S i) s
  | None => s
  end.

(** [basename] of [<libgen.h>]: the final path component, and the
    argument as the call leaves it (trailing slashes are cut in place). *)
Definition basename (s : string) : string * string :=
  match s with
  | EmptyString => (".", s)
  | _ =>
      match rstrip_slash s with
      | EmptyString => ("/", s)
      | r => (after_last_slash r, r)
      end
  end.

(** [%-16s] *)
Definition pad16 (s : string) : string :=
  s ++ String.concat "" (replicate (16 - String.length s) " ").

Definition NL : string := String LF "".

Section Program.

(** The tool list given to [dispatcher_template] and the modules
    linked with the generated source. *)
Variable tools : list string.
Variable L : linkage.

(** [static struct Tool tools[]] without its terminator. *)
Definition table : list Tool :=
  (λ t, MkTool t (desc_of L t) (help_of L t)) <$> tools.

(** The first entry whose name compares equal. *)
Definition lookup_tool (n : string) : option Tool :=
  List.find (λ e, String.eqb n (t_name e)) table.

Definition help_line (e : Tool) : string :=
  "  " ++ pad16 (t_name e) ++ " " ++ default "" (t_desc e) ++ NL.

(** [help()] *)
Definition help : string :=
  APP_NAME ++ " v" ++ VERSION ++ NL
  ++ "Usage: " ++ APP_NAME ++ " <cmd> [args]" ++ NL ++ NL
  ++ String.concat "" (help_line <$> table).

(** [tool_help(name)] *)
Definition tool_help (n : string) : string :=
  match lookup_tool n with
  | Some e =>
      (match t_desc e with
       | Some d => n ++ " - " ++ d ++ NL
       | None => ""
       end)
      ++ (match t_help e with
          | Some hlp => hlp ++ NL
          | None => "Usage: " ++ n ++ " [args]" ++ NL
          end)
  | None => "Unknown command: " ++ n ++ NL
  end.

(** [dispatch(name, argc, argv)] *)
Definition dispatch (n : string) (argv : list string) : run :=
  if help_requested argv then Run (tool_help n) "" (Return 0)
  else
    match lookup_tool n with
    | Some e => Run "" "" (Enter (t_name e) argv)
    | None => Run "" ("Unknown command: " ++ n ++ NL) (Return 1)
    end.

(** [main(argc, argv)]; [argc] is the length of [argv]. *)
Definition main (argv : list string) : run :=
  let '(prog, argv) :=
    match argv with
    | [] => (".", [])
    | a0 :: rest => let '(b, a0') := basename a0 in (b, a0' :: rest)
    end in
  if help_requested argv then Run help "" (Return 0)
  else if String.eqb prog APP_NAME then
    match argv with
    | _ :: n :: _ => dispatch n (tail argv)
    | _ => Run help "" (Return 0)
    end
  else dispatch prog argv.

End Program.

(** What an observer sees of a run, given what each entry function does
    on its arguments (its output and its return value). *)
Definition observe (entry : string → list string → string * string * Z) (r : run)
  : string * string * Z :=
  match r_finish r with
  | Return st => (r_stdout r, r_stderr r, st)
  | Enter fn argv =>
      let '(o, e, st) := entry fn argv in
      (r_stdout r ++ o, r_stderr r ++ e, st)
  end.

End Dispatcher.

(* ===================================================================== *)
(** * manager.py: the simpler variant *)
(* ===================================================================== *)

Module Manager.

(** [TOOLS_DIR = "./tools"] and [BUILD_DIR = "./build"] are the
    directories [TOOLS] and [BUILD] of the world; the working directory
    itself belongs to [ELSEWHERE]. *)
Definition OUTPUT_BIN : string := "toolbox".

Definition name_start (c : ascii) : bool := is_upper c || is_lower c || is_underscore c.
Definition name_char (c : ascii) : bool := name_start c || is_digit c.

(** [NAME_PATTERN = re.compile(r"^[A-Za-z_][A-Za-z0-9_]*$")] *)
Definition NAME_PATTERN : list Re.atom :=
  [Re.Bol; Re.Cls name_start; Re.Star name_char; Re.Eol].

Definition is_valid_tool_name (name : string) : bool := Re.re_match NAME_PATTERN name.

(** [str.isspace] on the characters below 256. *)
Definition is_space (c : ascii) : bool :=
  let n := N_of_ascii c in
  ((9 <=? n) && (n <=? 13) || (28 <=? n) && (n <=? 32) || (n =? 133) || (n =? 160))%N.

Fixpoint lstrip (s : string) : string :=
  match s with
  | String c s' => if is_space c then lstrip s' else s
  | EmptyString => EmptyString
  end.

Fixpoint rstrip (s : string) : string :=
  match s with
  | EmptyString => EmptyString
  | String c s' =>
      match rstrip s' with
      | EmptyString => if is_space c then EmptyString else String c EmptyString
      | r => String c r
      end
  end.

(** [str.strip()] *)
Definition strip (s : string) : string := rstrip (lstrip s).

(** The path that [open(p, "w")] writes: symlinks are followed, also a
    dangling last one. *)
Fixpoint final_path (fuel : nat) (w : world) (p : path) : option path :=
  match lstat w p with
  | Some (Link q) =>
      match fuel with
      | O => None
      | S fuel' => final_path fuel' w q
      end
  | _ => Some p
  end.

(** [with open(p, "w") as f: f.write(data)]: the file is truncated
    where it is, then filled. *)
Definition write_in_place (p : path) (data : string) : M unit :=
  λ w, match final_path MAXSYMLINKS w p with
       | None => (Raised OSError, w)
       | Some q =>
           match lstat w q with
           | Some Dir => (Raised IsADirectoryError, w)
           | _ => (Ok tt, set_dir (parent q) (<[name q := File data]> (get_dir (parent q) w)) w)
           end
       end.

Definition tool_source (name : string) : string :=
  join_lines
    [ "";
      "#include <stdio.h>";
      "int " ++ name ++ "_main(int argc, char **argv) {";
      "    printf(" ++ dq ++ "Running module: " ++ name ++ "\n" ++ dq ++ ");";
      "    return 0;";
      "}";
      "" ].

(** [create_tool]; [line] is what [input] returns. *)
Definition create_tool (line : string) : M unit :=
  let name := strip line in
  if negb (is_valid_tool_name name) then
    print "Invalid name. Use letters, numbers, and underscores, starting with a letter or underscore."
  else
    let path := TOOLS // (name ++ ".c") in
    let* ex := get (λ w, path_exists w path) in
    if ex : bool then print ("Tool " ++ name ++ " already exists. Aborting to avoid overwrite.")
    else
      do write_in_place path (tool_source name) then
      print ("Tool " ++ name ++ " created.").

(** [f[:-2]] *)
Definition drop2 (f : string) : string := substring 0 (String.length f - 2) f.

(** The listing at the head of [construct]. *)
Definition gather (w : world) : list string :=
  sorted (drop2 <$> filter (λ f, endswith f ".c" && is_valid_tool_name (drop2 f) = true)
                           (map_to_list (tools_dir w)).*1).

Definition c_code (tools : list string) : string :=
  let declarations := join_lines ((λ t, "int " ++ t ++ "_main(int argc, char **argv);") <$> tools) in
  let table_entries :=
    join_lines ((λ t, "    {" ++ dq ++ t ++ dq ++ ", " ++ t ++ "_main},") <$> tools) in
  join_lines
    [ "";
      "#include <stdio.h>";
      "#include <string.h>";
      "#include <libgen.h>";
      "";
      declarations;
      "";
      "struct Tool { char *name; int (*func)(int, char**); };";
      "";
      "struct Tool tools[] = {";
      table_entries;
      "    {NULL, NULL}";
      "};";
      "";
      "int main(int argc, char **argv) {";
      "    char *progname = basename(argv[0]);";
      "";
      "    if (strcmp(progname, " ++ dq ++ OUTPUT_BIN ++ dq ++ ") == 0) {";
      "        printf(" ++ dq ++ "Available commands:\n" ++ dq ++ ");";
      "        for (int i = 0; tools[i].name; i++) printf(" ++ dq ++ "  %s\n" ++ dq ++ ", tools[i].name);";
      "        return 0;";
      "    }";
      "";
      "    for (int i = 0; tools[i].name; i++) {";
      "        if (strcmp(progname, tools[i].name) == 0) return tools[i].func(argc, argv);";
      "    }";
      "    ";
      "    printf(" ++ dq ++ "Unknown command: %s\n" ++ dq ++ ", progname);";
      "    return 1;";
      "}";
      "" ].

Definition construct (h : host) : M unit :=
  do print "Gathering tools..." then
  let* tools := get gather in
  match tools with
  | [] => print "No tools found. Please 'Load' a tool first."
  | _ =>
      let main_path := BUILD // "main.c" in
      do write_in_place main_path (c_code tools) then
      let cmd := (["gcc"; "-o"; OUTPUT_BIN; "./build/main.c"]
                  ++ ((λ t, ("./tools/" ++ t ++ ".c")%string) <$> tools))%list in
      do print "Compiling..." then
      λ w, match check_call h cmd (ELSEWHERE // OUTPUT_BIN) w with
           | (Ok _, w') => print ("Success! ./" ++ OUTPUT_BIN ++ " created.") w'
           | (Raised FileNotFoundError, w') =>
               print "Compilation Failed: gcc not found. Please install GCC and ensure it is in your PATH." w'
           | (Raised CalledProcessError, w') => print "Compilation Failed." w'
           | r => r
           end
  end.

(** [main] of the C program in [c_code]. *)
Definition main (tools : list string) (argv : list string) : Dispatcher.run :=
  let '(progname, argv) :=
    match argv with
    | [] => (".", [])
    | a0 :: rest => let '(b, a0') := Dispatcher.basename a0 in (b, a0' :: rest)
    end in
  if String.eqb progname OUTPUT_BIN then
    Dispatcher.Run ("Available commands:" ++ Dispatcher.NL
                    ++ String.concat "" ((λ t, "  " ++ t ++ Dispatcher.NL) <$> tools))
                   "" (Dispatcher.Return 0)
  else
    match List.find (λ t, String.eqb progname t) tools with
    | Some t => Dispatcher.Run "" "" (Dispatcher.Enter t argv)
    | None =>
        Dispatcher.Run ("Unknown command: " ++ progname ++ Dispatcher.NL) "" (Dispatcher.Return 1)
    end.

End Manager.

(* ===================================================================== *)
(** * toolbox.py: the menu, the command line and the bootstrap *)
(* ===================================================================== *)

(** [ensure_dirs]: [mkdir(parents=True, exist_ok=True)] on [ROOT] and its
    three directories, which every world has: nothing changes. *)
Definition ensure_dirs : M unit := ret tt.

Module Menu.

(** [curses.KEY_UP], [curses.KEY_DOWN], [ord("k")], [ord("j")]. *)
Definition KEY_UP : Z := 259.
Definition KEY_DOWN : Z := 258.
Definition ORD_K : Z := 107.
Definition ORD_J : Z := 106.

Definition options : list string := ["Create tool"; "Build"; "List tools"; "Exit"].

(** The [while True] loop of [_menu]: [keys] are the values that
    [getch] returns, in order; [None] when they end before Enter. *)
Fixpoint select_index (keys : list Z) (idx : Z) : option Z :=
  match keys with
  | [] => None
  | key :: keys' =>
      if (key =? KEY_UP)%Z || (key =? ORD_K)%Z
      then select_index keys' ((idx - 1) `mod` Z.of_nat (List.length options))%Z
      else if (key =? KEY_DOWN)%Z || (key =? ORD_J)%Z
      then select_index keys' ((idx + 1) `mod` Z.of_nat (List.length options))%Z
      else if (key =? 10)%Z || (key =? 13)%Z then Some idx
      else select_index keys' idx
  end.

(** [menu_select]; [typed] is the decoded text that [getstr] returns
    when a name is asked for. *)
Definition menu_select (keys : list Z) (typed : string) : option (string * option string) :=
  match select_index keys 0 with
  | None => None
  | Some idx =>
      let choice := nth (Z.to_nat idx) options "" in
      if String.eqb choice "Create tool" then
        let name := Manager.strip typed in
        Some ("create", if String.eqb name "" then None else Some name)
      else if String.eqb choice "Build" then Some ("build", None)
      else if String.eqb choice "List tools" then Some ("list", None)
      else Some ("exit", None)
  end.

(** What the terminal gives to one turn of [cmd_menu]: curses fails
    with an exception of text [text], or the keys pressed in the menu,
    the text typed at the name prompt, and whether standard input still
    has a line for the closing prompt. *)
Inductive tty :=
| NoTui (text : string)
| Keys (keys : list Z) (typed : string) (enter : bool).

(** How a run of the menu or of the program ends. [Waiting]: the keys
    ended while the menu was still open. *)
Inductive ending :=
| Returned
| Exited (msg : string)
| Crashed (e : exn)
| EndOfInput
| Waiting.

Definition end_of {A} (o : outcome A) : ending :=
  match o with
  | Ok _ => Returned
  | Died msg => Exited msg
  | Raised e => Crashed e
  end.

(** The body of the loop of [cmd_menu] between [menu_select] and the
    closing prompt. [show] is [str] on exceptions. The console holds the
    lines of [print]; [print(exc)] on the [SystemExit] of [die] is the
    exit status. *)
Definition menu_action (h : host) (show : exn → string)
    (action : string) (name : option string) : M unit :=
  if String.eqb action "create" then
    match name with
    | None | Some EmptyString => print "No tool name provided."
    | Some n =>
        λ w, match cmd_create h n w with
             | (Died _, w') => print "1" w'
             | r => r
             end
    end
  else if String.eqb action "build" then
    λ w, match cmd_build h w with
         | (Raised e, w') => print (show e) w'
         | r => r
         end
  else if String.eqb action "list" then
    let* tools := get list_tools in
    match tools with
    | [] => print "No tools found."
    | _ => print ("Tools: " ++ String.concat ", " tools)
    end
  else ret tt.

(** [cmd_menu]: one element of [ttys] for every turn of the loop. *)
Fixpoint cmd_menu (h : host) (show : exn → string) (ttys : list tty) (w : world)
  : ending * world :=
  match ttys with
  | [] => (Waiting, w)
  | NoTui text :: _ =>
      (Returned,
       snd (print ("TUI unavailable (" ++ text ++ "), falling back to basic menu.") w))
  | Keys keys typed enter :: ttys' =>
      match menu_select keys typed with
      | None => (Waiting, w)
      | Some (action, name) =>
          if String.eqb action "exit" then (Returned, w)
          else
            match menu_action h show action name w with
            | (Ok _, w') => if enter then cmd_menu h show ttys' w' else (EndOfInput, w')
            | (o, w') => (end_of o, w')
            end
      end
  end.

(** [main]; [argv] is [sys.argv]. *)
Definition main (h : host) (show : exn → string) (argv : list string) (ttys : list tty)
    (w : world) : ending * world :=
  match ensure_dirs w with
  | (Ok _, w) =>
      match argv with
      | _ :: cmd :: rest =>
          if String.eqb cmd "create" && (List.length argv =? 3)%nat then
            match rest with
            | n :: _ => let '(o, w') := cmd_create h n w in (end_of o, w')
            | [] => (Returned, w)
            end
          else if String.eqb cmd "build" then
            let '(o, w') := cmd_build h w in (end_of o, w')
          else if String.eqb cmd "menu" then cmd_menu h show ttys w
          else if String.eqb cmd "list" then
            match list_tools w with
            | [] => (Returned, w)
            | tools => let '(o, w') := print (join_lines tools) w in (end_of o, w')
            end
          else let '(o, w') := die (A := unit) "Invalid command" w in (end_of o, w')
      | _ => cmd_menu h show ttys w
      end
  | (o, w') => (end_of o, w')
  end.

End Menu.

Module Bootstrap.

(** What [ensure_venv] reads of the running process. *)
Record process := Process {
  environ : gmap string string;   (* os.environ *)
  sys_argv : list string;
  sys_executable : string
}.

(** How [ensure_venv] ends: it returns, it exits with a message, it
    raises, or it replaces the process image ([os.execve]). *)
Inductive boot :=
| Proceed
| BootExit (msg : string)
| BootRaise (e : exn)
| Execve (path : string) (argv : list string) (env : gmap string string).

Definition VENV_FLAG : string := "TOOLBOX_VENV_ACTIVE".

(** [str(VENV)]; the venv lies outside of the three directories. *)
Definition venv_str (h : host) : string := home h ++ "/.tools/" ++ APP_NAME ++ "/venv".
Definition python_str (h : host) : string := venv_str h ++ "/bin/python".

(** [ensure_venv]; [mkvenv] is the run of [python -m venv]: the world
    it leaves on exit status 0. *)
Definition ensure_venv (h : host) (mkvenv : list string → world → option world)
    (pr : process) (w : world) : boot * world :=
  if decide (environ pr !! VENV_FLAG = Some "1") then (Proceed, w)
  else
    let w1 := snd (print ("[*] Creating Python venv: " ++ venv_str h) w) in
    let made :=
      if path_exists w (ELSEWHERE // venv_str h) then Some w
      else mkvenv [sys_executable pr; "-m"; "venv"; venv_str h] w1 in
    match made with
    | None => (BootRaise CalledProcessError, w1)
    | Some w' =>
        if path_exists w' (ELSEWHERE // python_str h) then
          (Execve (python_str h) (python_str h :: sys_argv pr)
                  (<[VENV_FLAG := "1"]> (environ pr)), w')
        else (BootExit "[!] venv python missing", w')
    end.

End Bootstrap.

(* ===================================================================== *)
(** * manager.py: unloading a tool and the menu loop *)
(* ===================================================================== *)

Module ManagerLoop.

(** [unload_tool]; [line] is what [input] returns. [os.remove] acts as
    [unlink]. *)
Definition unload_tool (line : string) : M unit :=
  let name := Manager.strip line in
  if negb (Manager.is_valid_tool_name name) then
    print "Invalid name. Use letters, numbers, and underscores, starting with a letter or underscore."
  else
    let path := TOOLS // (name ++ ".c") in
    let* ex := get (λ w, path_exists w path) in
    if ex : bool then
      do unlink path then
      print (name ++ " removed.")
    else print "Tool not found.".

(** How [main] of manager.py ends: [sys.exit()] (status 0), the end of
    standard input ([EOFError]), a [die], or another exception. *)
Inductive halt :=
| Quit
| Eof
| Exit1 (msg : string)
| Crash (e : exn).

Definition menu_lines : list string :=
  [String LF "=== Python Builder ==="; "1. Construct/Rebuild"; "2. Load (Add tool)";
   "3. Unload (Remove tool)"; "4. Exit"].

Definition print_menu : M unit := for_each menu_lines print.

Definition halt_of {A} (o : outcome A) : halt :=
  match o with
  | Ok _ => Quit
  | Died msg => Exit1 msg
  | Raised e => Crash e
  end.

(** [main]: [inputs] are the lines of standard input; each [input]
    takes the next one and raises [EOFError] when there is none. *)
Fixpoint main (h : host) (inputs : list string) (w : world) : halt * world :=
  let w := snd (print_menu w) in
  match inputs with
  | [] => (Eof, w)
  | choice :: rest =>
      if String.eqb choice "1" then
        match Manager.construct h w with
        | (Ok _, w') => main h rest w'
        | (o, w') => (halt_of o, w')
        end
      else if String.eqb choice "2" then
        match rest with
        | [] => (Eof, w)
        | line :: rest' =>
            match Manager.create_tool line w with
            | (Ok _, w') => main h rest' w'
            | (o, w') => (halt_of o, w')
            end
        end
      else if String.eqb choice "3" then
        match rest with
        | [] => (Eof, w)
        | line :: rest' =>
            match unload_tool line w with
            | (Ok _, w') => main h rest' w'
            | (o, w') => (halt_of o, w')
            end
        end
      else if String.eqb choice "4" then (Quit, w)
      else main h rest (snd (print "Invalid option." w))
  end.

End ManagerLoop.

(* ===================================================================== *)
(** * Names used in the statements *)
(* ===================================================================== *)

(** The lines that [die] leaves on stderr. *)
Definition invalid_name_msg : string := "[!] Invalid tool name (lowercase, start with letter)".
Definition already_exists_msg : string := "[!] Tool already exists".
Definition no_compiler_msg : string := "[!] No C compiler found (gcc/clang)".
Definition no_tools_msg : string := "[!] No tools to build".

(** The command line that [cmd_build] hands to the compiler. *)
Definition build_cmd (h : host) (cc : string) (tools : list string) : list string :=
  ([cc] ++ CFLAGS
   ++ ["-o"; path_str h (BUILD // APP_NAME); path_str h (BUILD // "main.c")]
   ++ ((λ t, path_str h (TOOLS // (t ++ ".c"))) <$> tools)
   ++ LDFLAGS)%list.

(** The world in which [cmd_build] starts the compiler: the generated
    dispatcher is in place and the progress line is out. *)
Definition before_compile (w : world) : world :=
  World (tools_dir w)
        (<["main.c" := File (dispatcher_template (list_tools w))]> (build_dir w))
        (bin_dir w) (elsewhere w) (console w ++ ["[*] Building..."]).

(** The output name of a build is free or holds a regular file: it is
    no symlink and no directory. *)
Definition plain_output (w : world) (out : path) : Prop :=
  lstat w out = None ∨ ∃ data, lstat w out = Some (File data).

(** The install directory after a link to [out] was made under each name. *)
Definition link_all (out : path) (names : list string) (m : gmap string node)
  : gmap string node :=
  foldl (λ acc t, <[t := Link out]> acc) m names.

(** The last line that a successful [cmd_build] prints. *)
Definition path_hint (h : host) : string :=
  "    Add to PATH: export PATH=" ++ dq ++ root_str h BIN ++ ":$PATH" ++ dq.

(** The command line of [construct], and the world after its first line. *)
Definition gcc_cmd (tools : list string) : list string :=
  (["gcc"; "-o"; Manager.OUTPUT_BIN; "./build/main.c"]
   ++ ((λ t, ("./tools/" ++ t ++ ".c")%string) <$> tools))%list.

Definition gathering (w : world) : world :=
  World (tools_dir w) (build_dir w) (bin_dir w) (elsewhere w)
        (console w ++ ["Gathering tools..."]).

(** The world in which [construct] starts gcc, when [build/main.c] was
    free or a regular file: the dispatcher source is in place and two
    lines are out. *)
Definition before_gcc (w : world) : world :=
  World (tools_dir w)
        (<["main.c" := File (Manager.c_code (Manager.gather w))]> (build_dir w))
        (bin_dir w) (elsewhere w)
        ((console w ++ ["Gathering tools..."]) ++ ["Compiling..."])%list.

(** The two lines with which [construct] reports a failed compilation. *)
Definition gcc_missing_msg : string :=
  "Compilation Failed: gcc not found. Please install GCC and ensure it is in your PATH.".
Definition gcc_failed_msg : string := "Compilation Failed.".

(** The net number of steps down that a run of menu keys makes. *)
Fixpoint net_moves (keys : list Z) : Z :=
  match keys with
  | [] => 0
  | key :: keys' =>
      (if (key =? Menu.KEY_UP)%Z || (key =? Menu.ORD_K)%Z then -1
       else if (key =? Menu.KEY_DOWN)%Z || (key =? Menu.ORD_J)%Z then 1
       else 0) + net_moves keys'
  end%Z.

(** None of the keys is Enter. *)
Definition no_enter (keys : list Z) : Prop :=
  Forall (λ key, key ≠ 10%Z ∧ key ≠ 13%Z) keys.

(** The grammar of manager.py in words: a letter or an underscore, then
    letters, digits and underscores. *)
Definition manager_ident (s : string) : Prop :=
  ∃ c r, s = String c r ∧ Manager.name_start c = true
         ∧ string_forallb Manager.name_char r = true.

(** No character of [s] is a slash. *)
Definition no_slash (s : string) : bool := string_forallb (λ c, negb (Ascii.eqb c SLASH)) s.

(* ===================================================================== *)
(** * Hosts and worlds used in the examples *)
(* ===================================================================== *)

Module Examples.

(** A machine with gcc only; the compiler always succeeds. *)
Definition host_gcc : host :=
  Host "/home/u"
       (λ c, if String.eqb c "gcc" then Some "/usr/bin/gcc" else None)
       ["tmpk3_x9a0b"; "tmp0v81m_zq"]
       (λ _ _, Built "ELF").

(** A machine without a C compiler. *)
Definition host_bare : host :=
  Host "/home/u" (λ _, None) ["tmpk3_x9a0b"; "tmp0v81m_zq"] (λ _ _, NotFound).

Definition no_linkage : Dispatcher.linkage := Dispatcher.Linkage (λ _, None) (λ _, None).

(** The value of [<name>_help] in a module made by [tool_template]. *)
Definition template_help (name : string) : string :=
  "Usage: " ++ name ++ " [args]" ++ Dispatcher.NL
  ++ "Description: " ++ name ++ " tool." ++ Dispatcher.NL
  ++ "Options:" ++ Dispatcher.NL
  ++ "  -h, --help  Show this help." ++ Dispatcher.NL.

(** Every tool module is as [tool_template] makes it: a help text, no
    description. *)
Definition help_linkage : Dispatcher.linkage :=
  Dispatcher.Linkage (λ _, None) (λ t, Some (template_help t)).

Definition empty_world : world := World ∅ ∅ ∅ ∅ [].

(** The registry holds [ping.c]; nothing was built yet. *)
Definition ping_world : world :=
  World {[ "ping.c" := File (tool_template "ping") ]} ∅ ∅ ∅ [].

Definition out : path := BUILD // APP_NAME.

(** As [ping_world], after an earlier build that also knew a tool [old]. *)
Definition stale_world : world :=
  World {[ "ping.c" := File (tool_template "ping") ]}
        {[ "toolbox" := File "ELF0" ]}
        {[ "old" := Link out; "ping" := Link out; "toolbox" := Link out ]}
        ∅ [].

(** As [ping_world], after the tree was copied from another home: the
    entry point [ping] still names the binary of the old place. *)
Definition moved_world : world :=
  World {[ "ping.c" := File (tool_template "ping") ]}
        ∅
        {[ "ping" := Link (ELSEWHERE // "/home/old/.tools/toolbox/build/toolbox") ]}
        ∅ [].

(** The registry directory holds a foreign file next to [ping.c]. *)
Definition foreign_world : world :=
  World {[ "ping.c" := File (tool_template "ping"); "Bad-Name.c" := File "int x;" ]} ∅ ∅ ∅ [].

(** A registry whose one tool carries the name of the program itself. *)
Definition selfname_world : world :=
  World {[ "toolbox.c" := File (tool_template "toolbox") ]} ∅ ∅ ∅ [].

(** [a] followed by a newline. *)
Definition a_newline : string := String "a" (String LF "").

End Examples.

(* ===================================================================== *)
(** * More inputs used in the examples *)
(* ===================================================================== *)

Module Cases.

(** Down, j, x, k, up, up: one step up in all. *)
Definition some_keys : list Z := [258; 106; 120; 107; 259; 259]%Z.

(** The text typed at the name prompt: the name with blanks around it. *)
Definition typed_ping : string := " ping" ++ String LF "".

(** The registry holds [ping.c]; [main.c] in [build/] is a directory. *)
Definition dir_world : world :=
  World {[ "ping.c" := File (tool_template "ping") ]} {[ "main.c" := Dir ]} ∅ ∅ [].

(** A machine with gcc on which every link fails. *)
Definition host_failing : host :=
  Host "/home/u"
       (λ c, if String.eqb c "gcc" then Some "/usr/bin/gcc" else None)
       ["tmpk3_x9a0b"; "tmp0v81m_zq"]
       (λ _ _, LinkError).

(** A machine whose gcc may not be executed. *)
Definition host_denied : host :=
  Host "/home/u" (λ _, None) ["tmpk3_x9a0b"; "tmp0v81m_zq"] (λ _ _, NotExecutable).

(** As [Examples.host_gcc], with [HOME=rel]: a relative path. *)
Definition host_rel : host :=
  Host "rel"
       (λ c, if String.eqb c "gcc" then Some "/usr/bin/gcc" else None)
       ["tmpk3_x9a0b"; "tmp0v81m_zq"]
       (λ _ _, Built "ELF").

(** The registry holds [ping.c]; [build/toolbox] is a symlink to a file
    that is not there. *)
Definition linked_out_world : world :=
  World {[ "ping.c" := File (tool_template "ping") ]}
        {[ "toolbox" := Link (ELSEWHERE // "/opt/tb/toolbox") ]}
        ∅ ∅ [].

(** The registry entry [echo.c] is a symlink to a module of another
    tree, which has been removed since. *)
Definition dangling_module_world : world :=
  World {[ "echo.c" := Link (ELSEWHERE // "/home/old/tools/echo.c") ]} ∅ ∅ ∅ [].

(** An earlier build left [./toolbox] in the working directory. *)
Definition built_world : world :=
  World {[ "ping.c" := File (Manager.tool_source "ping") ]} ∅ ∅
        {[ "toolbox" := File "ELF0" ]} [].

(** [str] on the exceptions, shortened. *)
Definition show (e : exn) : string :=
  match e with
  | FileExistsError => "[Errno 17] File exists"
  | FileNotFoundError => "[Errno 2] No such file or directory"
  | IsADirectoryError => "[Errno 21] Is a directory"
  | NotADirectoryError => "[Errno 20] Not a directory"
  | OSError => "[Errno 40] Too many levels of symbolic links"
  | CalledProcessError => "Command returned non-zero exit status 1."
  | PermissionError => "[Errno 13] Permission denied"
  end.

(** A process started by hand, and the creation of the venv. *)
Definition fresh_process : Bootstrap.process :=
  Bootstrap.Process {[ "HOME" := "/home/u" ]} ["toolbox.py"; "build"] "/usr/bin/python3".

Definition mkvenv_ok (cmd : list string) (w : world) : option world :=
  Some (World (tools_dir w) (build_dir w) (bin_dir w)
              (<[Bootstrap.python_str Examples.host_gcc := File "python"]>
                 (<[Bootstrap.venv_str Examples.host_gcc := Dir]> (elsewhere w)))
              (console w)).

End Cases.

(* ===================================================================== *)
(** * Facts about strings and the matcher *)
(* ===================================================================== *)

Lemma append_cons c s t : String c s ++ t = String c (s ++ t).
Proof. reflexivity. Qed.

Lemma append_nil_r s : s ++ "" = s.
Proof. induction s as [|c s IH]; [done|]. by rewrite append_cons, IH. Qed.

Lemma append_assoc s t u : s ++ t ++ u = (s ++ t) ++ u.
Proof. induction s as [|c s IH]; [done|]. by rewrite !append_cons, IH. Qed.

Lemma length_append s t : String.length (s ++ t) = String.length s + String.length t.
Proof. induction s as [|c s IH]; [done|]. rewrite append_cons. simpl. by rewrite IH. Qed.

Lemma concat_empty_cons c l : String.concat "" (c :: l) = c ++ String.concat "" l.
Proof. destruct l; [by rewrite append_nil_r | done]. Qed.

Lemma string_forallb_app f s t :
  string_forallb f (s ++ t) = string_forallb f s && string_forallb f t.
Proof.
  induction s as [|c s IH]; simpl; [done|].
  by rewrite IH, andb_assoc.
Qed.

Lemma string_forallb_impl (f g : ascii → bool) s :
  (∀ c, f c = true → g c = true) →
  string_forallb f s = true → string_forallb g s = true.
Proof.
  intros Hfg. induction s as [|c s IH]; simpl; [done|].
  intros [Hc Hs]%andb_true_iff. rewrite (Hfg _ Hc). simpl. auto.
Qed.

(** What [[c]*$] accepts: a run of [c]-characters up to the end, or up to
    a newline that ends the subject. *)
Lemma star_eol_spec c b s :
  Re.matches [Re.Star c; Re.Eol] b s = true ↔
  ∃ r, (s = r ∨ s = r ++ String LF "") ∧ string_forallb c r = true.
Proof.
  induction s as [|a s IH] in b |- *.
  - simpl. split; [|done]. intros _. exists "". auto.
  - change (Re.matches [Re.Star c; Re.Eol] b (String a s))
      with ((c a && Re.matches [Re.Star c; Re.Eol] false s)
            || (Re.at_eol (String a s) && true)).
    rewrite orb_true_iff, !andb_true_iff, IH. split.
    + intros [[Ha (r & Hr & Hall)] | [He _]].
      * exists (String a r). simpl. rewrite Ha, Hall.
        split; [|done]. destruct Hr as [-> | ->]; auto.
      * exists "". split; [|done]. right. simpl in *.
        destruct s; [|done]. apply Ascii.eqb_eq in He. by subst.
    + intros ([|a' r] & Hr & Hall).
      * right. destruct Hr as [Hr | Hr]; [done|].
        simpl in Hr. injection Hr as -> ->. done.
      * left. simpl in Hall. apply andb_true_iff in Hall as [Ha Hall].
        assert (a = a' ∧ (s = r ∨ s = r ++ String LF "")) as [-> Hs].
        { destruct Hr as [Hr | Hr]; simpl in Hr; injection Hr as -> ->; auto. }
        split; [done|]. eauto.
Qed.

Lemma ident_identb s : ident s ↔ identb s = true.
Proof.
  unfold ident. destruct s as [|c r]; simpl.
  - split; [intros (? & ? & ? & _); done | done].
  - rewrite andb_true_iff. split.
    + intros (c' & r' & [= -> ->] & ? & ?). done.
    + intros [? ?]. eauto.
Qed.

(** A pattern [^[c1][c2]*$] reads one [c1]-character, then runs the star. *)
Lemma anchored_class_star_unfold c1 c2 s :
  Re.re_match [Re.Bol; Re.Cls c1; Re.Star c2; Re.Eol] s
  = match s with
    | String a s' => c1 a && Re.matches [Re.Star c2; Re.Eol] false s'
    | EmptyString => false
    end.
Proof. by destruct s. Qed.

(** What [TOOL_RE.match] accepts: the identifiers, and the identifiers
    followed by one newline. *)
Lemma TOOL_RE_match_iff s :
  Re.re_match TOOL_RE s = true ↔ ident s ∨ ∃ t, s = t ++ String LF "" ∧ ident t.
Proof.
  unfold TOOL_RE. rewrite anchored_class_star_unfold. destruct s as [|a s].
  - split; [done|]. intros [(? & ? & ? & _) | (t & Ht & (? & ? & -> & _))]; done.
  - rewrite andb_true_iff, star_eol_spec. unfold ident. split.
    + intros [Ha (r & [-> | ->] & Hall)]; [left; eauto|].
      right. exists (String a r). split; [done|]. eauto.
    + intros [(c & r & [= -> ->] & Ha & Hall) | (t & Ht & (c & r & -> & Ha & Hall))].
      * eauto.
      * simpl in Ht. injection Ht as -> ->. eauto.
Qed.

(* ===================================================================== *)
(** * Name validation *)
(* ===================================================================== *)

(** [validate_tool] returns its argument or dies; it never touches the world. *)
Lemma validate_tool_cases s w :
  (Re.re_match TOOL_RE s = true ∧ validate_tool s w = (Ok s, w))
  ∨ (Re.re_match TOOL_RE s = false ∧ validate_tool s w = (Died invalid_name_msg, w)).
Proof. unfold validate_tool. destruct (Re.re_match TOOL_RE s); auto. Qed.

Lemma validate_tool_pure s w : snd (validate_tool s w) = w.
Proof. by destruct (validate_tool_cases s w) as [[_ ->] | [_ ->]]. Qed.

Lemma validate_tool_ok_iff s w :
  validate_tool s w = (Ok s, w) ↔ ident s ∨ ∃ t, s = t ++ String LF "" ∧ ident t.
Proof.
  rewrite <- TOOL_RE_match_iff.
  destruct (validate_tool_cases s w) as [[Hm ->] | [Hm ->]]; rewrite Hm; split; done.
Qed.

(** Every identifier of the grammar is accepted. *)
Lemma validate_tool_complete s w : ident s → validate_tool s w = (Ok s, w).
Proof. intros. apply validate_tool_ok_iff. auto. Qed.

Lemma ident_no_newline s : ident s → string_forallb (λ c, negb (Ascii.eqb c LF)) s = true.
Proof.
  intros (c & r & -> & Hc & Hr). simpl. apply andb_true_iff. split.
  - destruct (Ascii.eqb_spec c LF) as [-> |]; [done | done].
  - eapply string_forallb_impl; [|exact Hr].
    intros a Ha. destruct (Ascii.eqb_spec a LF) as [-> |]; [done | done].
Qed.

(** On subjects that do not end in a newline the validator is exactly the grammar. *)
Lemma validate_tool_sound_without_final_newline s w :
  endswith s (String LF "") = false →
  validate_tool s w = (Ok s, w) → ident s.
Proof.
  intros Hend [H | (t & -> & _)]%validate_tool_ok_iff; [done|].
  exfalso. revert Hend. unfold endswith.
  assert (String.length (t ++ String LF "") = S (String.length t)) as ->.
  { induction t; simpl; auto. }
  simpl. replace (String.length t - 0) with (String.length t) by lia.
  assert (substring (String.length t) 1 (t ++ String LF "") = String LF "") as ->.
  { induction t; simpl; auto. }
  done.
Qed.

(** C6, at the input that separates the code from the grammar: the string
    [a] followed by a newline is not an identifier of the grammar
    (lowercase letters, digits and underscores after a lowercase letter),
    yet [validate_tool] returns it as a valid name. On every other kind of
    subject the validator and the grammar agree
    ([validate_tool_ok_iff], [validate_tool_sound_without_final_newline]). *)
Theorem validate_tool_accepts_trailing_newline (w : world) :
  validate_tool Examples.a_newline w = (Ok Examples.a_newline, w)
  ∧ ¬ ident Examples.a_newline.
Proof.
  split; [done|].
  intros H%ident_identb. done.
Qed.

(** The validator of manager.py follows another grammar: capitals and a
    leading underscore pass. *)
Lemma is_valid_tool_name_iff s :
  Manager.is_valid_tool_name s = true ↔
  ∃ c r, (s = String c r ∨ s = String c r ++ String LF "")
         ∧ Manager.name_start c = true ∧ string_forallb Manager.name_char r = true.
Proof.
  unfold Manager.is_valid_tool_name, Manager.NAME_PATTERN.
  rewrite anchored_class_star_unfold. destruct s as [|a s].
  - split; [done|]. intros (c & r & [H | H] & _); done.
  - rewrite andb_true_iff, star_eol_spec. split.
    + intros [Ha (r & Hr & Hall)]. exists a, r.
      split; [|done]. destruct Hr as [-> | ->]; auto.
    + intros (c & r & Hs & Hc & Hr).
      assert (a = c ∧ (s = r ∨ s = r ++ String LF "")) as [-> Hs'].
      { destruct Hs as [Hs | Hs]; simpl in Hs; injection Hs as -> ->; auto. }
      eauto.
Qed.

Example is_valid_tool_name_capital :
  Manager.is_valid_tool_name "Ping" = true ∧ Re.re_match TOOL_RE "Ping" = false.
Proof. done. Qed.

(* ===================================================================== *)
(** * The file system: frame facts *)
(* ===================================================================== *)

Lemma get_set_dir d m w : get_dir d (set_dir d m w) = m.
Proof. by destruct d. Qed.

Lemma get_set_dir_ne d d' m w : d ≠ d' → get_dir d' (set_dir d m w) = get_dir d' w.
Proof. by destruct d, d'. Qed.

Lemma set_get_dir d w : set_dir d (get_dir d w) w = w.
Proof. by destruct d, w. Qed.

Lemma console_set_dir d m w : console (set_dir d m w) = console w.
Proof. by destruct d. Qed.

Lemma world_eq w1 w2 :
  (∀ d, get_dir d w1 = get_dir d w2) → console w1 = console w2 → w1 = w2.
Proof.
  intros Hd Hc. destruct w1, w2. simpl in *.
  pose proof (Hd TOOLS). pose proof (Hd BUILD). pose proof (Hd BIN). pose proof (Hd ELSEWHERE).
  simpl in *. congruence.
Qed.

Lemma pick_tmp_Some cands m tmp :
  pick_tmp cands m = Some tmp → m !! tmp = None ∧ tmp ∈ cands.
Proof.
  unfold pick_tmp. intros [Hin Hfree]%List.find_some.
  apply bool_decide_eq_true in Hfree. split; [done|]. by apply list_elem_of_In.
Qed.

(* ===================================================================== *)
(** * The atomic file writer *)
(* ===================================================================== *)

Section AtomicWrite.

Variable m : gmap string node.
Variables tmp target : string.
Hypothesis tmp_free : m !! tmp = None.

(** The whole call, on a directory in which the temporary name is free. *)
Lemma run_atomic_write_ops_whole data :
  run_ops (atomic_write_ops tmp target [data]) m
  = if decide (tmp = target) then (None, <[target := File data]> m)
    else match m !! target with
         | Some Dir => (Some IsADirectoryError, <[tmp := File data]> m)
         | _ => (None, <[target := File data]> m)
         end.
Proof using tmp_free.
  unfold atomic_write_ops. simpl. rewrite tmp_free. simpl.
  rewrite lookup_insert_eq. simpl. rewrite lookup_insert_eq, insert_insert_eq.
  destruct (decide (tmp = target)) as [<- | Hne]; [done|].
  rewrite lookup_insert_ne by done.
  rewrite delete_insert_eq, (delete_id m tmp) by done.
  by destruct (m !! target) as [[]|].
Qed.

(** After [Create] and any number of writes the directory differs from
    the initial one at the temporary name only. *)
Lemma run_ops_appends chunks d0 :
  run_ops (Append tmp <$> chunks) (<[tmp := File d0]> m)
  = (None, <[tmp := File (d0 ++ String.concat "" chunks)]> m).
Proof.
  induction chunks as [|c chunks IH] in d0 |- *.
  - simpl. by rewrite append_nil_r.
  - rewrite concat_empty_cons, append_assoc, <- IH. simpl.
    by rewrite lookup_insert_eq, insert_insert_eq.
Qed.

End AtomicWrite.

Lemma run_ops_app ops1 ops2 (m : gmap string node) :
  run_ops (ops1 ++ ops2) m
  = match run_ops ops1 m with
    | (None, m') => run_ops ops2 m'
    | r => r
    end.
Proof.
  induction ops1 as [|o ops1 IH] in m |- *; simpl; [done|].
  destruct (fsop_step o m); [done | apply IH].
Qed.

(** What [atomic_write] leaves when it returns normally. *)
Lemma atomic_write_ok h p data w w' :
  atomic_write h p data w = (Ok tt, w') →
  w' = set_dir (parent p) (<[name p := File data]> (get_dir (parent p) w)) w.
Proof.
  unfold atomic_write.
  destruct (pick_tmp _ _) as [tmp|] eqn:Hpick; [|done].
  apply pick_tmp_Some in Hpick as [Hfree _].
  rewrite (run_atomic_write_ops_whole _ _ _ Hfree).
  destruct (decide (tmp = name p)); [by intros [= <-]|].
  by destruct (get_dir (parent p) w !! name p) as [[]|]; intros [= <-].
Qed.

(** Whatever its outcome, [atomic_write] changes the directory of its
    target only. *)
Lemma atomic_write_frame h p data w r w' :
  atomic_write h p data w = (r, w') →
  ∃ m', w' = set_dir (parent p) m' w.
Proof.
  unfold atomic_write.
  destruct (pick_tmp _ _) as [tmp|]; [|intros [= _ <-]; exists (get_dir (parent p) w); by rewrite set_get_dir].
  destruct (run_ops _ _) as [[e|] m']; intros [= _ <-]; eauto.
Qed.

(** C5: [atomic_write] ([write(path, content)]) works on a temporary file
    of the target's own directory and ends with one rename. Stopped after
    any number of its system calls short of the rename (the calls are the
    creation of the temporary file and the writes, in whatever pieces the
    data is flushed), the target name still holds what it held before, or
    is still absent, and so does every name but the temporary one. The
    rename, the last call, puts the whole content at the target in one
    step and leaves no temporary file. The temporary name is the one that
    [NamedTemporaryFile] drew, a name other than the target's. *)
Theorem atomic_write_all_or_nothing (h : host) (p : path) (data : string) (w : world)
    (tmp : string) (chunks : list string) :
  pick_tmp (tmp_names h) (get_dir (parent p) w) = Some tmp →
  tmp ≠ name p →
  String.concat "" chunks = data →
  (∀ k, k < List.length (atomic_write_ops tmp (name p) chunks) →
        ∃ m', run_ops (take k (atomic_write_ops tmp (name p) chunks)) (get_dir (parent p) w)
              = (None, m')
              ∧ m' !! name p = get_dir (parent p) w !! name p
              ∧ ∀ n, n ≠ tmp → m' !! n = get_dir (parent p) w !! n)
  ∧ last (atomic_write_ops tmp (name p) chunks) = Some (Replace tmp (name p))
  ∧ (get_dir (parent p) w !! name p ≠ Some Dir →
     run_ops (atomic_write_ops tmp (name p) chunks) (get_dir (parent p) w)
     = (None, <[name p := File data]> (get_dir (parent p) w))
     ∧ atomic_write h p data w
       = (Ok tt, set_dir (parent p) (<[name p := File data]> (get_dir (parent p) w)) w)).
Proof.
  intros Hpick Hne Hdata.
  pose proof (pick_tmp_Some _ _ _ Hpick) as [Hfree _].
  set (m := get_dir (parent p) w) in *.
  assert (atomic_write_ops tmp (name p) chunks
          = ((Create tmp :: (Append tmp <$> chunks)) ++ [Replace tmp (name p)])%list) as Hops by done.
  split; [|split].
  - intros k Hk. rewrite Hops in Hk |- *.
    rewrite length_app in Hk. simpl in Hk.
    rewrite take_app_le by (simpl; lia).
    destruct k as [|k]; simpl.
    { exists m. auto. }
    rewrite Hfree, <- fmap_take, (run_ops_appends m tmp).
    eexists. split; [done|]. split.
    + by rewrite lookup_insert_ne.
    + intros n Hn. by rewrite lookup_insert_ne.
  - rewrite Hops. apply last_snoc.
  - intros Hdir. assert (run_ops (atomic_write_ops tmp (name p) chunks) m
                         = (None, <[name p := File data]> m)) as Hrun.
    { rewrite Hops, run_ops_app. simpl. rewrite Hfree.
      rewrite (run_ops_appends m tmp). simpl. rewrite lookup_insert_eq.
      rewrite decide_False by done.
      rewrite lookup_insert_ne by done.
      rewrite delete_insert_eq, (delete_id m tmp) by done.
      change ("" ++ String.concat "" chunks) with (String.concat "" chunks).
      rewrite Hdata. by destruct (m !! name p) as [[]|]. }
    split; [done|].
    unfold atomic_write. fold m. rewrite Hpick.
    rewrite (run_atomic_write_ops_whole _ _ _ Hfree), decide_False by done.
    by destruct (m !! name p) as [[]|].
Qed.

(** A target that exists is never the temporary name; nor is one with a
    dot in it, as the temporary names are made of letters, digits and
    underscores. *)
Lemma tmp_differs_from_existing_target cands (m : gmap string node) tmp target :
  pick_tmp cands m = Some tmp → is_Some (m !! target) → tmp ≠ target.
Proof.
  intros [Hfree _]%pick_tmp_Some [x Hx] ->. congruence.
Qed.

(** The same write in manager.py goes to the target itself: the old
    content is gone as soon as the file is opened. *)
Lemma write_in_place_overwrites name old data w :
  lstat w (BUILD // name) = Some (File old) →
  Manager.write_in_place (BUILD // name) data w
  = (Ok tt, set_dir BUILD (<[name := File data]> (build_dir w)) w).
Proof.
  intros H. unfold Manager.write_in_place. simpl. by rewrite H, H.
Qed.

(* ===================================================================== *)
(** * The registry: [cmd_create] *)
(* ===================================================================== *)

Lemma cmd_create_unfold h n w :
  cmd_create h n w
  = if Re.re_match TOOL_RE n then
      if path_exists w (TOOLS // (n ++ ".c")) then (Died already_exists_msg, w)
      else match atomic_write h (TOOLS // (n ++ ".c")) (tool_template n) w with
           | (Ok _, w') => print ("[+] Created " ++ path_str h (TOOLS // (n ++ ".c"))) w'
           | (Died msg, w') => (Died msg, w')
           | (Raised e, w') => (Raised e, w')
           end
    else (Died invalid_name_msg, w).
Proof.
  unfold cmd_create, bind, validate_tool, get.
  destruct (Re.re_match TOOL_RE n); [|done]. simpl.
  by destruct (path_exists w (TOOLS // (n ++ ".c"))).
Qed.

(** A regular file is seen by [Path.exists()]. *)
Lemma path_exists_file w p data : lstat w p = Some (File data) → path_exists w p = true.
Proof. intros H. unfold path_exists, stat. simpl. by rewrite H. Qed.

Lemma path_exists_lstat w p : path_exists w p = true → is_Some (lstat w p).
Proof.
  unfold path_exists, stat. simpl. destruct (lstat w p); [eauto | done].
Qed.

(** Where the guard of [cmd_create] fires, that is where [exists()] sees
    the module file of a valid name [n], the command stops with the
    already-exists error and the world is the one it started from. *)
Lemma cmd_create_existing (h : host) (n : string) (w : world) :
  Re.re_match TOOL_RE n = true →
  path_exists w (TOOLS // (n ++ ".c")) = true →
  cmd_create h n w = (Died already_exists_msg, w).
Proof.
  intros Hvalid Hex. by rewrite cmd_create_unfold, Hvalid, Hex.
Qed.

(** The same for a module that is a regular file: its content stays. *)
Lemma cmd_create_existing_file h n w data :
  Re.re_match TOOL_RE n = true →
  tools_dir w !! (n ++ ".c") = Some (File data) →
  cmd_create h n w = (Died already_exists_msg, w)
  ∧ tools_dir (snd (cmd_create h n w)) !! (n ++ ".c") = Some (File data).
Proof.
  intros Hvalid Hfile. rewrite cmd_create_unfold, Hvalid.
  by rewrite (path_exists_file w (TOOLS // (n ++ ".c")) data Hfile).
Qed.

(** The guard fires for every module that is not a symlink: a regular
    file or a directory under the module's name. *)
Lemma cmd_create_existing_plain h n w nd :
  Re.re_match TOOL_RE n = true →
  tools_dir w !! (n ++ ".c") = Some nd →
  (∀ q, nd ≠ Link q) →
  cmd_create h n w = (Died already_exists_msg, w).
Proof.
  intros Hvalid Hnd Hnl. rewrite cmd_create_unfold, Hvalid.
  assert (path_exists w (TOOLS // (n ++ ".c")) = true) as ->; [|done].
  unfold path_exists, stat, MAXSYMLINKS. cbn [stat_fuel]. unfold lstat.
  cbn [parent name get_dir]. rewrite Hnd. destruct nd; [done | by destruct (Hnl target) | done].
Qed.

(** C8, at a registry whose entry [echo.c] is a dangling symlink (the
    module it named was removed): [list_tools] lists [echo], [exists()]
    does not see the entry, so [cmd_create] ([create("echo")]) does not
    stop with the already-exists error: it returns normally and the
    entry is replaced by a fresh template file. Where [exists()] sees the
    module the command stops as the claim says ([cmd_create_existing],
    [cmd_create_existing_plain]). *)
Theorem cmd_create_replaces_dangling_module :
  Re.re_match TOOL_RE "echo" = true
  ∧ list_tools Cases.dangling_module_world = ["echo"]
  ∧ tools_dir Cases.dangling_module_world !! "echo.c"
    = Some (Link (ELSEWHERE // "/home/old/tools/echo.c"))
  ∧ path_exists Cases.dangling_module_world (TOOLS // "echo.c") = false
  ∧ fst (cmd_create Examples.host_gcc "echo" Cases.dangling_module_world) = Ok tt
  ∧ tools_dir (snd (cmd_create Examples.host_gcc "echo" Cases.dangling_module_world)) !! "echo.c"
    = Some (File (tool_template "echo")).
Proof. by vm_compute. Qed.

(** What a successful [cmd_create] does to the world. *)
Lemma cmd_create_ok h n w w' :
  cmd_create h n w = (Ok tt, w') →
  Re.re_match TOOL_RE n = true
  ∧ path_exists w (TOOLS // (n ++ ".c")) = false
  ∧ w' = World (<[n ++ ".c" := File (tool_template n)]> (tools_dir w))
               (build_dir w) (bin_dir w) (elsewhere w)
               (console w ++ ["[+] Created " ++ path_str h (TOOLS // (n ++ ".c"))]).
Proof.
  rewrite cmd_create_unfold.
  destruct (Re.re_match TOOL_RE n); [|done].
  destruct (path_exists w _); [done|].
  destruct (atomic_write _ _ _ w) as [[[]|msg|e] w1] eqn:Haw; [|done..].
  apply atomic_write_ok in Haw as ->. by intros [= <-].
Qed.

(** [create(n)] twice in a row: the second call fails and changes nothing. *)
Lemma cmd_create_twice h n w w1 :
  cmd_create h n w = (Ok tt, w1) →
  cmd_create h n w1 = (Died already_exists_msg, w1).
Proof.
  intros (Hvalid & _ & ->)%cmd_create_ok.
  rewrite cmd_create_unfold, Hvalid.
  erewrite path_exists_file; [done|].
  unfold lstat. simpl. apply lookup_insert_eq.
Qed.

Lemma rfind_app_last c s t :
  rfind c t = None → rfind c (s ++ String c t) = Some (String.length s).
Proof.
  intros Ht. induction s as [|a s IH].
  - simpl. by rewrite Ht, Ascii.eqb_refl.
  - rewrite append_cons. simpl. by rewrite IH.
Qed.

Lemma substring_app_prefix s t : substring 0 (String.length s) (s ++ t) = s.
Proof.
  induction s as [|a s IH].
  - by destruct t.
  - rewrite append_cons. simpl. by rewrite IH.
Qed.

(** The stem of the module file of [n] is [n]. *)
Lemma stem_module_file n : n ≠ "" → stem (n ++ ".c") = n.
Proof.
  intros Hn. unfold stem.
  rewrite (rfind_app_last "." n "c") by done.
  assert ((0 <? String.length n)%nat
          && (String.length n <? String.length (n ++ ".c") - 1)%nat = true) as ->.
  { rewrite length_append. apply andb_true_iff.
    split; apply Nat.ltb_lt; destruct n; simpl in *; [done | lia..]. }
  apply substring_app_prefix.
Qed.

Lemma valid_nonempty n : Re.re_match TOOL_RE n = true → n ≠ "".
Proof. by intros H ->. Qed.

(** C10: a successful [cmd_create] ([create(n)]) of a name that is not in
    the registry adds one file, the module source of [n] (named by its
    stem), and leaves all the rest as it was: the other registry files,
    the build directory, the installed entry points and the files outside
    of [ROOT]. *)
Theorem cmd_create_frame (h : host) (n : string) (w w' : world) :
  tools_dir w !! (n ++ ".c") = None →
  cmd_create h n w = (Ok tt, w') →
  tools_dir w' !! (n ++ ".c") = Some (File (tool_template n))
  ∧ stem (n ++ ".c") = n
  ∧ dom (tools_dir w') = {[ n ++ ".c" ]} ∪ dom (tools_dir w)
  ∧ size (tools_dir w') = S (size (tools_dir w))
  ∧ (∀ f, f ≠ n ++ ".c" → tools_dir w' !! f = tools_dir w !! f)
  ∧ build_dir w' = build_dir w
  ∧ bin_dir w' = bin_dir w
  ∧ elsewhere w' = elsewhere w.
Proof.
  intros Hnew (Hvalid & _ & ->)%cmd_create_ok. simpl.
  split; [apply lookup_insert_eq|].
  split; [by apply stem_module_file, valid_nonempty|].
  split; [apply dom_insert_L|].
  split; [by apply map_size_insert_None|].
  split; [|done].
  intros f Hf. by rewrite lookup_insert_ne.
Qed.

(** [cmd_create] does succeed on a valid new name when a temporary name
    is available. *)
Lemma cmd_create_succeeds h n w tmp :
  Re.re_match TOOL_RE n = true →
  tools_dir w !! (n ++ ".c") = None →
  pick_tmp (tmp_names h) (tools_dir w) = Some tmp →
  ∃ w', cmd_create h n w = (Ok tt, w').
Proof.
  intros Hvalid Hnew Hpick. rewrite cmd_create_unfold, Hvalid.
  assert (path_exists w (TOOLS // (n ++ ".c")) = false) as ->.
  { unfold path_exists, stat, stat_fuel, lstat. simpl. by rewrite Hnew. }
  unfold atomic_write. cbn [parent name get_dir]. rewrite Hpick.
  pose proof (pick_tmp_Some _ _ _ Hpick) as [Hfree _].
  rewrite (run_atomic_write_ops_whole _ _ _ Hfree), Hnew.
  destruct (decide (tmp = n ++ ".c")); eauto.
Qed.

(* ===================================================================== *)
(** * The registry: [list_tools] *)
(* ===================================================================== *)

Lemma sorted_perm l : sorted l ≡ₚ l.
Proof. apply merge_sort_Permutation. Qed.

Lemma sorted_strongly l : StronglySorted String.le (sorted l).
Proof. apply (StronglySorted_merge_sort String.le). Qed.

Lemma sorted_nil_iff l : sorted l = [] ↔ l = [].
Proof.
  split; [|by intros ->].
  intros H. symmetry. apply Permutation_nil_l. rewrite <- H. apply sorted_perm.
Qed.

Lemma elem_of_glob_c (m : gmap string node) f :
  f ∈ glob_c m ↔ is_Some (m !! f) ∧ endswith f ".c" = true.
Proof.
  unfold glob_c. rewrite list_elem_of_filter, list_elem_of_fmap. split.
  - intros [He ([f' x] & -> & Hin%elem_of_map_to_list)]. eauto.
  - intros [[x Hx] He]. split; [done|].
    exists (f, x). split; [done|]. by apply elem_of_map_to_list.
Qed.

(** The listing is in order and holds the stem of every [*.c] name of
    the registry directory, whatever the stem looks like. *)
Lemma list_tools_sorted w : StronglySorted String.le (list_tools w).
Proof. apply sorted_strongly. Qed.

Lemma elem_of_list_tools w t :
  t ∈ list_tools w ↔ ∃ f, is_Some (tools_dir w !! f) ∧ endswith f ".c" = true ∧ stem f = t.
Proof.
  unfold list_tools. rewrite sorted_perm, list_elem_of_fmap. split.
  - intros (f & -> & [Hs He]%elem_of_glob_c). eauto.
  - intros (f & Hs & He & <-). exists f. split; [done|]. by apply elem_of_glob_c.
Qed.

(** The listing of manager.py keeps the stems that its validator accepts. *)
Lemma elem_of_gather w t :
  t ∈ Manager.gather w ↔
  ∃ f, is_Some (tools_dir w !! f) ∧ endswith f ".c" = true
       ∧ Manager.is_valid_tool_name t = true ∧ Manager.drop2 f = t.
Proof.
  unfold Manager.gather. rewrite sorted_perm, list_elem_of_fmap.
  setoid_rewrite list_elem_of_filter. setoid_rewrite list_elem_of_fmap. split.
  - intros (f & -> & [He Hv]%andb_true_iff & ([f' x] & -> & Hin%elem_of_map_to_list)).
    exists f'. eauto.
  - intros (f & [x Hx] & He & Hv & <-). exists f. split; [done|].
    split; [by rewrite He, Hv|].
    exists (f, x). split; [done|]. by apply elem_of_map_to_list.
Qed.

(** C7, at a registry directory with a foreign file: [list_tools]
    ([list()]) returns the stem [Bad-Name], which fails name validation,
    next to [ping]; the listing of manager.py on the same directory skips
    it. The listing is sorted and complete ([list_tools_sorted],
    [elem_of_list_tools]); it is the filter on the stems that is missing. *)
Theorem list_tools_keeps_invalid_stem :
  list_tools Examples.foreign_world = ["Bad-Name"; "ping"]
  ∧ Re.re_match TOOL_RE "Bad-Name" = false
  ∧ Manager.gather Examples.foreign_world = ["ping"].
Proof. by vm_compute. Qed.

(* ===================================================================== *)
(** * The build: [cmd_build] *)
(* ===================================================================== *)

Lemma find_cc_cases h w :
  (∃ cc, find_cc h w = (Ok cc, w)
         ∧ (which h "gcc" = Some cc ∨ which h "gcc" = None ∧ which h "clang" = Some cc))
  ∨ (which h "gcc" = None ∧ which h "clang" = None
     ∧ find_cc h w = (Died no_compiler_msg, w)).
Proof.
  unfold find_cc.
  destruct (which h "gcc") as [cc|]; [left; eauto|].
  destruct (which h "clang") as [cc|]; [left; eauto | right; auto].
Qed.

(** Without a compiler the build stops before it looks at the registry. *)
Lemma cmd_build_no_compiler h w :
  which h "gcc" = None → which h "clang" = None →
  cmd_build h w = (Died no_compiler_msg, w).
Proof.
  intros Hg Hc. unfold cmd_build, bind, find_cc. by rewrite Hg, Hc.
Qed.

(** C9, as the code has it: on a machine where a compiler is found,
    [cmd_build] ([build()]) on an empty registry stops with the no-tools
    error and leaves the world as it was: nothing is written under the
    build directory or the install directory. *)
Theorem cmd_build_empty_registry (h : host) (w : world) :
  is_Some (which h "gcc") ∨ is_Some (which h "clang") →
  list_tools w = [] →
  cmd_build h w = (Died no_tools_msg, w).
Proof.
  intros Hcc Hempty. unfold cmd_build, bind.
  destruct (find_cc_cases h w) as [(cc & -> & _) | (Hg & Hc & _)].
  - unfold get. by rewrite Hempty.
  - rewrite Hg, Hc in Hcc. by destruct Hcc as [[? ?] | [? ?]].
Qed.

(** ** Installing the entry points *)

Lemma lookup_link_all out names m n :
  link_all out names m !! n
  = if decide (n ∈ names) then Some (Link out) else m !! n.
Proof.
  unfold link_all. induction names as [|t names IH] in m |- *; cbn [foldl].
  - by rewrite decide_False by apply not_elem_of_nil.
  - rewrite IH. destruct (decide (n ∈ names)) as [Hin | Hnin].
    + by rewrite decide_True by (by right).
    + destruct (decide (n = t)) as [-> | Hne].
      * by rewrite lookup_insert_eq, decide_True by left.
      * rewrite lookup_insert_ne by done.
        by rewrite decide_False by (intros [? | ?]%elem_of_cons; done).
Qed.

Lemma dom_link_all out names (m : gmap string node) :
  dom (link_all out names m) = dom m ∪ list_to_set names.
Proof.
  apply set_eq. intros n.
  rewrite elem_of_union, elem_of_list_to_set, !elem_of_dom, lookup_link_all.
  destruct (decide (n ∈ names)); [|tauto].
  split; [auto|]. intros _. eauto.
Qed.

(** One turn of the loop, when it raises nothing, leaves a fresh link. *)
Lemma install_links_step out t names w :
  install_links out (t :: names) w
  = match lstat w (BIN // t) with
    | None => install_links out names (set_dir BIN (<[t := Link out]> (bin_dir w)) w)
    | Some Dir =>
        if path_exists w (BIN // t) then (Raised IsADirectoryError, w)
        else (Raised FileExistsError, w)
    | Some _ =>
        if path_exists w (BIN // t)
        then install_links out names (set_dir BIN (<[t := Link out]> (bin_dir w)) w)
        else (Raised FileExistsError, w)
    end.
Proof.
  unfold install_links at 1. simpl. fold (install_links out names).
  unfold bind at 1 2. unfold get at 1.
  destruct (lstat w (BIN // t)) as [nd|] eqn:Hl.
  - destruct (path_exists w (BIN // t)) eqn:Hex.
    + unfold bind, unlink. rewrite Hl. destruct nd; try done.
      all: unfold symlink_to, lstat; simpl; rewrite lookup_delete_eq;
        by rewrite insert_delete_eq.
    + unfold bind, ret, symlink_to. rewrite Hl. by destruct nd.
  - assert (path_exists w (BIN // t) = false) as ->.
    { unfold path_exists, stat. simpl. by rewrite Hl. }
    unfold bind, ret, symlink_to. by rewrite Hl.
Qed.

Lemma install_links_ok out names w w' :
  install_links out names w = (Ok tt, w') →
  w' = set_dir BIN (link_all out names (bin_dir w)) w.
Proof.
  induction names as [|t names IH] in w |- *.
  - intros [= <-]. by destruct w.
  - rewrite install_links_step.
    destruct (lstat w (BIN // t)) as [[]|]; destruct (path_exists w (BIN // t)); try done.
    all: intros ->%IH; by destruct w.
Qed.

Lemma is_absolute_app s t : is_absolute s = true → is_absolute (s ++ t) = true.
Proof. by destruct s. Qed.

Lemma link_to_absolute h d n :
  is_absolute (home h) = true → link_to h d (BUILD // n) = BUILD // n.
Proof.
  intros Habs. unfold link_to, path_str, root_str. cbn [parent name].
  rewrite is_absolute_app; [done|]. by apply is_absolute_app.
Qed.

Lemma write_output_plain out binary w :
  plain_output w out → write_output out binary w = put out (File binary) w.
Proof. unfold write_output. by intros [-> | [data ->]]. Qed.

Lemma remove_output_plain out w :
  plain_output w out →
  remove_output out w = set_dir (parent out) (delete (name out) (get_dir (parent out) w)) w.
Proof.
  unfold remove_output. intros [Hl | [data ->]]; [|done].
  rewrite Hl. unfold lstat in Hl. rewrite delete_id by done. by destruct w, (parent out).
Qed.

Lemma plain_output_before_compile w :
  plain_output w (BUILD // APP_NAME) → plain_output (before_compile w) (BUILD // APP_NAME).
Proof.
  unfold plain_output, lstat, before_compile. cbn [parent name get_dir build_dir].
  by rewrite lookup_insert_ne.
Qed.

(** What a successful [cmd_build] does to the world: the dispatcher is
    written, the compiler leaves its output, the links are made. *)
Lemma cmd_build_ok h w w' :
  cmd_build h w = (Ok tt, w') →
  ∃ cc binary,
    find_cc h w = (Ok cc, w)
    ∧ cc_run h (build_cmd h cc (list_tools w)) (before_compile w) = Built binary
    ∧ list_tools w ≠ []
    ∧ tools_dir w' = tools_dir (write_output (BUILD // APP_NAME) binary (before_compile w))
    ∧ build_dir w' = build_dir (write_output (BUILD // APP_NAME) binary (before_compile w))
    ∧ bin_dir w'
      = link_all (link_to h BIN (BUILD // APP_NAME)) (list_tools w ++ [APP_NAME])
                 (bin_dir (write_output (BUILD // APP_NAME) binary (before_compile w)))
    ∧ elsewhere w' = elsewhere (write_output (BUILD // APP_NAME) binary (before_compile w)).
Proof.
  unfold cmd_build, bind.
  destruct (find_cc_cases h w) as [(cc & Hcc & _) | (_ & _ & ->)]; [|done].
  rewrite Hcc. unfold get. destruct (list_tools w) as [|t ts] eqn:Hts; [done|].
  destruct (atomic_write h _ _ w) as [[[]|msg|e] w1] eqn:Haw; [|done..].
  apply atomic_write_ok in Haw. cbn [parent name get_dir set_dir] in Haw. subst w1.
  unfold print at 1. cbn [tools_dir build_dir bin_dir elsewhere console].
  unfold check_call.
  fold (build_cmd h cc (t :: ts)).
  unfold before_compile. rewrite Hts.
  match goal with |- context [cc_run h ?c ?x] =>
    destruct (cc_run h c x) as [binary| | | |] eqn:Hrun end; [|done..].
  match goal with |- context [install_links ?o ?ns ?x] =>
    destruct (install_links o ns x) as [[[]|msg|e] w2] eqn:Hin end; [|done..].
  apply install_links_ok in Hin. subst w2.
  unfold print. cbn [set_dir tools_dir build_dir bin_dir elsewhere console].
  intros [= <-]. exists cc, binary. cbn [tools_dir build_dir bin_dir elsewhere]. done.
Qed.

(** With a plain output name and an absolute home directory. *)
Lemma cmd_build_ok_plain h w w' :
  is_absolute (home h) = true →
  plain_output w (BUILD // APP_NAME) →
  cmd_build h w = (Ok tt, w') →
  ∃ cc binary,
    find_cc h w = (Ok cc, w)
    ∧ cc_run h (build_cmd h cc (list_tools w)) (before_compile w) = Built binary
    ∧ list_tools w ≠ []
    ∧ tools_dir w' = tools_dir w
    ∧ build_dir w'
      = <[APP_NAME := File binary]>
          (<["main.c" := File (dispatcher_template (list_tools w))]> (build_dir w))
    ∧ bin_dir w' = link_all (BUILD // APP_NAME) (list_tools w ++ [APP_NAME]) (bin_dir w)
    ∧ elsewhere w' = elsewhere w.
Proof.
  intros Habs Hplain (cc & binary & Hcc & Hrun & Hne & Ht & Hb & Hbin & He)%cmd_build_ok.
  rewrite write_output_plain in Ht, Hb, Hbin, He by by apply plain_output_before_compile.
  rewrite link_to_absolute in Hbin by done.
  exists cc, binary. done.
Qed.

Lemma stat_through_link w p q data :
  lstat w p = Some (Link q) → lstat w q = Some (File data) → stat w p = Some (File data).
Proof.
  intros Hp Hq. unfold stat, MAXSYMLINKS.
  cbn [stat_fuel]. rewrite Hp. cbn [stat_fuel]. by rewrite Hq.
Qed.

(** C1, as the code has it: when the home directory is an absolute path
    and [build/toolbox] is no symlink and no directory before the build,
    then after a successful [cmd_build] ([build()]) every registered tool
    name and the canonical name is an installed entry point, each a link
    that resolves to the binary just built (the one the compiler made
    from the generated dispatcher and the modules); the entry points of
    all other names are those that were installed before, so the
    installed set is the earlier set joined with the tool names and the
    canonical name. *)
Theorem cmd_build_entry_points (h : host) (w w' : world) :
  is_absolute (home h) = true →
  plain_output w (BUILD // APP_NAME) →
  cmd_build h w = (Ok tt, w') →
  ∃ cc binary,
    cc_run h (build_cmd h cc (list_tools w)) (before_compile w) = Built binary
    ∧ build_dir w' !! APP_NAME = Some (File binary)
    ∧ (∀ t, t ∈ (list_tools w ++ [APP_NAME])%list →
            bin_dir w' !! t = Some (Link (BUILD // APP_NAME))
            ∧ stat w' (BIN // t) = Some (File binary))
    ∧ (∀ t, t ∉ (list_tools w ++ [APP_NAME])%list → bin_dir w' !! t = bin_dir w !! t)
    ∧ dom (bin_dir w') = dom (bin_dir w) ∪ list_to_set (list_tools w ++ [APP_NAME])%list.
Proof.
  intros Habs Hplain Hok.
  destruct (cmd_build_ok_plain h w w' Habs Hplain Hok)
    as (cc & binary & _ & Hrun & _ & _ & Hbuild & Hbin & _).
  exists cc, binary.
  assert (build_dir w' !! APP_NAME = Some (File binary)) as Hout.
  { rewrite Hbuild. apply lookup_insert_eq. }
  split; [done|]. split; [done|]. split; [|split].
  - intros t Ht.
    assert (bin_dir w' !! t = Some (Link (BUILD // APP_NAME))) as Hl.
    { by rewrite Hbin, lookup_link_all, decide_True. }
    split; [done|]. by eapply stat_through_link.
  - intros t Ht. by rewrite Hbin, lookup_link_all, decide_False.
  - rewrite Hbin. apply dom_link_all.
Qed.

(** All entry points are links with one and the same target, whatever
    the home directory and the output name are. *)
Lemma cmd_build_entry_points_links h w w' :
  cmd_build h w = (Ok tt, w') →
  ∀ t, t ∈ (list_tools w ++ [APP_NAME])%list →
       bin_dir w' !! t = Some (Link (link_to h BIN (BUILD // APP_NAME))).
Proof.
  intros (cc & binary & _ & _ & _ & _ & _ & Hbin & _)%cmd_build_ok t Ht.
  by rewrite Hbin, lookup_link_all, decide_True.
Qed.

(** With [HOME=rel] the text of each link is a relative path, which the
    kernel reads from [bin/]: the build succeeds and every entry point
    dangles. *)
Lemma cmd_build_relative_home_dangles :
  fst (cmd_build Cases.host_rel Examples.ping_world) = Ok tt
  ∧ build_dir (snd (cmd_build Cases.host_rel Examples.ping_world)) !! APP_NAME
    = Some (File "ELF")
  ∧ bin_dir (snd (cmd_build Cases.host_rel Examples.ping_world)) !! "ping"
    = Some (Link (ELSEWHERE // "rel/.tools/toolbox/bin/rel/.tools/toolbox/build/toolbox"))
  ∧ path_exists (snd (cmd_build Cases.host_rel Examples.ping_world)) (BIN // "ping") = false
  ∧ path_exists (snd (cmd_build Cases.host_rel Examples.ping_world)) (BIN // APP_NAME) = false.
Proof. by vm_compute. Qed.

(** With a symlink to a missing file at [build/toolbox] the linker
    writes through it: the binary ends up at the target of the symlink. *)
Lemma cmd_build_output_through_symlink :
  fst (cmd_build Examples.host_gcc Cases.linked_out_world) = Ok tt
  ∧ build_dir (snd (cmd_build Examples.host_gcc Cases.linked_out_world)) !! APP_NAME
    = Some (Link (ELSEWHERE // "/opt/tb/toolbox"))
  ∧ elsewhere (snd (cmd_build Examples.host_gcc Cases.linked_out_world)) !! "/opt/tb/toolbox"
    = Some (File "ELF").
Proof. by vm_compute. Qed.

(** On an empty install directory the installed set is exactly the tool
    names and the canonical name. *)
Lemma cmd_build_entry_points_fresh h w w' :
  bin_dir w = ∅ →
  plain_output w (BUILD // APP_NAME) →
  cmd_build h w = (Ok tt, w') →
  dom (bin_dir w') = list_to_set (list_tools w ++ [APP_NAME])%list.
Proof.
  intros He Hplain (cc & binary & _ & _ & _ & _ & _ & Hbin & _)%cmd_build_ok.
  rewrite write_output_plain in Hbin by by apply plain_output_before_compile.
  cbn [put parent name get_dir set_dir before_compile bin_dir] in Hbin.
  rewrite Hbin, dom_link_all, He, dom_empty_L. apply (left_id_L ∅ (∪)).
Qed.

(** ** The entry point that is there but dangles *)

(** A dangling link under an entry-point name stops the installation:
    [exists()] does not see it, so it is not removed, and the new link
    cannot be made. *)
Lemma install_links_dangling out t names w q :
  lstat w (BIN // t) = Some (Link q) →
  path_exists w (BIN // t) = false →
  install_links out (t :: names) w = (Raised FileExistsError, w).
Proof. intros Hl Hex. by rewrite install_links_step, Hl, Hex. Qed.

(** An absent name, or one that resolves to a file, gets a fresh link. *)
Lemma install_links_replaces out t w :
  lstat w (BIN // t) = None
  ∨ (path_exists w (BIN // t) = true ∧ lstat w (BIN // t) ≠ Some Dir) →
  install_links out [t] w = (Ok tt, set_dir BIN (<[t := Link out]> (bin_dir w)) w).
Proof.
  rewrite install_links_step. intros [-> | [-> Hnd]]; [done|].
  by destruct (lstat w (BIN // t)) as [[]|].
Qed.

(** C4, at an install directory whose [ping] entry is a dangling link
    (the tree was moved): the build compiles, then the installation loop
    raises [FileExistsError] at [ping]; the old link is still there and
    no entry point names the new binary. Absent names and names that
    resolve are replaced as the claim says ([install_links_replaces]). *)
Theorem cmd_build_dangling_entry_point :
  path_exists Examples.moved_world (BIN // "ping") = false
  ∧ fst (cmd_build Examples.host_gcc Examples.moved_world) = Raised FileExistsError
  ∧ bin_dir (snd (cmd_build Examples.host_gcc Examples.moved_world)) !! "ping"
    = Some (Link (ELSEWHERE // "/home/old/.tools/toolbox/build/toolbox"))
  ∧ bin_dir (snd (cmd_build Examples.host_gcc Examples.moved_world)) !! APP_NAME = None.
Proof. by vm_compute. Qed.

(* ===================================================================== *)
(** * The generated dispatcher *)
(* ===================================================================== *)

Section DispatcherFacts.

Import Dispatcher.

Variable tools : list string.
Variable L : linkage.

Lemma rstrip_slash_plain s : no_slash s = true → rstrip_slash s = s.
Proof.
  unfold no_slash. induction s as [|c s IH]; simpl; [done|].
  intros [Hc Hs]%andb_true_iff. rewrite (IH Hs).
  destruct s; [|done]. by apply negb_true_iff in Hc as ->.
Qed.

Lemma rfind_slash_plain s : no_slash s = true → rfind SLASH s = None.
Proof.
  unfold no_slash. induction s as [|c s IH]; simpl; [done|].
  intros [Hc Hs]%andb_true_iff. rewrite (IH Hs).
  by apply negb_true_iff in Hc as ->.
Qed.

(** A name without slashes is its own [basename] and is left as it is. *)
Lemma basename_plain s : s ≠ "" → no_slash s = true → basename s = (s, s).
Proof.
  intros Hne Hs. unfold basename.
  rewrite (rstrip_slash_plain s Hs). destruct s as [|c s]; [done|].
  unfold after_last_slash. by rewrite (rfind_slash_plain _ Hs).
Qed.

Lemma word_char_not_slash c : word_char c = true → negb (Ascii.eqb c SLASH) = true.
Proof. destruct (Ascii.eqb_spec c SLASH) as [-> |]; [by vm_compute | done]. Qed.

Lemma is_lower_word_char c : is_lower c = true → word_char c = true.
Proof. unfold word_char. by intros ->. Qed.

Lemma ident_no_slash s : ident s → no_slash s = true.
Proof.
  intros (c & r & -> & Hc & Hr). unfold no_slash. simpl.
  rewrite (word_char_not_slash c (is_lower_word_char c Hc)). simpl.
  eapply string_forallb_impl; [|exact Hr]. apply word_char_not_slash.
Qed.

Lemma valid_no_slash t : Re.re_match TOOL_RE t = true → no_slash t = true.
Proof.
  intros [H | (s & -> & H)]%TOOL_RE_match_iff; [by apply ident_no_slash|].
  pose proof (ident_no_slash s H) as Hs. unfold no_slash in *.
  by rewrite string_forallb_app, Hs.
Qed.

Lemma valid_not_help_flag t : Re.re_match TOOL_RE t = true → is_help_flag t = false.
Proof.
  unfold TOOL_RE. rewrite anchored_class_star_unfold.
  destruct t as [|c r]; [done|]. intros [Hc _]%andb_true_iff.
  unfold is_help_flag. simpl.
  destruct (Ascii.eqb_spec c "-") as [-> |]; [by vm_compute in Hc | done].
Qed.

Lemma lookup_tool_elem t :
  t ∈ tools → ∃ e, lookup_tool tools L t = Some e ∧ t_name e = t.
Proof.
  unfold lookup_tool, table. induction tools as [|a ts IH]; [by intros ?%elem_of_nil|].
  intros Hin. simpl. destruct (String.eqb_spec t a) as [-> | Hne]; [eauto|].
  apply IH. by apply elem_of_cons in Hin as [? | ?].
Qed.

Lemma lookup_tool_name n e : lookup_tool tools L n = Some e → t_name e = n.
Proof.
  unfold lookup_tool. intros [_ H]%List.find_some. symmetry. by apply String.eqb_eq.
Qed.

(** The subcommand path of the canonical name and the path of any other name. *)
Lemma main_canonical a0 n rest :
  basename a0 = (APP_NAME, a0) → is_help_flag n = false →
  main tools L (a0 :: n :: rest) = dispatch tools L n (n :: rest).
Proof. intros Hb Hn. unfold main. rewrite Hb. simpl. by rewrite Hn. Qed.

Lemma main_entry_point t args :
  basename t = (t, t) → t ≠ APP_NAME → help_requested (t :: args) = false →
  main tools L (t :: args) = dispatch tools L t (t :: args).
Proof.
  intros Hb Hne Hh. unfold main. rewrite Hb, Hh.
  by destruct (String.eqb_spec t APP_NAME).
Qed.

Lemma dispatch_enters t argv :
  t ∈ tools → help_requested argv = false →
  dispatch tools L t argv = Run "" "" (Enter t argv).
Proof.
  intros Hin Hh. unfold dispatch. rewrite Hh.
  by destruct (lookup_tool_elem t Hin) as (e & -> & ->).
Qed.

(** The two ways to reach a tool agree for every name in the table that
    can be a file name and a subcommand: not empty, without a slash, not
    a help flag, and not the canonical name. *)
Lemma entry_point_and_subcommand_enter t args :
  t ∈ tools → t ≠ "" → no_slash t = true → is_help_flag t = false →
  t ≠ APP_NAME →
  help_requested (t :: args) = false →
  main tools L (t :: args) = Run "" "" (Enter t (t :: args))
  ∧ main tools L (APP_NAME :: t :: args) = Run "" "" (Enter t (t :: args)).
Proof.
  intros Hin Hne Hslash Hflag Happ Hh. split.
  - rewrite main_entry_point; [by apply dispatch_enters | | done..].
    by apply basename_plain.
  - rewrite main_canonical; [by apply dispatch_enters | done..].
Qed.

(** Every name that [TOOL_RE] accepts can be a file name and a
    subcommand. *)
Lemma valid_name_conditions t :
  Re.re_match TOOL_RE t = true → t ≠ "" ∧ no_slash t = true ∧ is_help_flag t = false.
Proof.
  intros Hvalid. split; [by apply valid_nonempty|].
  split; [by apply valid_no_slash | by apply valid_not_help_flag].
Qed.

(** C2, as the code has it: for a registered tool name [t] that is not
    empty, holds no slash, is none of the help flags [-h] and [--help]
    and is not the program's canonical name, and for arguments that do
    not start with a help flag, the binary run through the entry point
    [t] as [t :: args] does what the canonical binary does as
    [APP_NAME :: t :: args]: it prints nothing itself and enters the
    tool's function on [t :: args], so the output and the exit status
    are the same whatever the tool functions do. *)
Theorem entry_point_equals_subcommand (t : string) (args : list string) :
  t ∈ tools →
  t ≠ "" →
  no_slash t = true →
  is_help_flag t = false →
  t ≠ APP_NAME →
  help_requested (t :: args) = false →
  main tools L (t :: args) = main tools L (APP_NAME :: t :: args)
  ∧ main tools L (t :: args) = Run "" "" (Enter t (t :: args))
  ∧ ∀ entry, observe entry (main tools L (t :: args))
             = observe entry (main tools L (APP_NAME :: t :: args)).
Proof.
  intros Hin Hnonempty Hslash Hflag Hne Hh.
  pose proof (entry_point_and_subcommand_enter t args Hin Hnonempty Hslash Hflag Hne Hh)
    as [H1 H2].
  by rewrite H1, H2.
Qed.

(** A help flag in the first argument position: [main] prints the
    general usage and returns 0, under every program name. *)
Lemma main_help_first a0 a rest :
  is_help_flag a = true →
  main tools L (a0 :: a :: rest) = Run (help tools L) "" (Return 0).
Proof.
  intros Ha. unfold main. destruct (basename a0) as [b a0'].
  simpl. by rewrite Ha.
Qed.

(** A help flag after the subcommand of the canonical name: the tool's
    help is printed and its function is not entered. *)
Lemma main_subcommand_help a0 n a rest :
  basename a0 = (APP_NAME, a0) → is_help_flag n = false → is_help_flag a = true →
  main tools L (a0 :: n :: a :: rest) = Run (tool_help tools L n) "" (Return 0).
Proof.
  intros Hb Hn Ha. rewrite main_canonical by done.
  unfold dispatch. simpl. by rewrite Ha.
Qed.

(** The text of [tool_help] for a registered tool: its description
    line when there is one, then its help text, or the usage line. *)
Lemma tool_help_registered t :
  t ∈ tools →
  tool_help tools L t
  = (match desc_of L t with Some d => t ++ " - " ++ d ++ NL | None => "" end)
    ++ (match help_of L t with
        | Some hlp => hlp ++ NL
        | None => "Usage: " ++ t ++ " [args]" ++ NL
        end).
Proof.
  intros Hin. unfold tool_help.
  destruct (lookup_tool_elem t Hin) as (e & He & Hn). rewrite He.
  unfold lookup_tool, table in He. apply List.find_some in He as [Hin' _].
  apply list_elem_of_In, list_elem_of_fmap in Hin' as (t' & -> & _).
  simpl in *. by subst.
Qed.

End DispatcherFacts.

(** C3, at the entry point [ping] run as [ping --help]: the binary
    prints the general usage of the program (its name, version and the
    list of commands), not the help text of [ping], which it does print
    when run as [toolbox ping --help]. It returns 0 and does not enter
    [ping_main] in both cases ([main_help_first],
    [main_subcommand_help]). *)
Theorem entry_point_help_prints_general_usage :
  Dispatcher.main ["ping"] Examples.help_linkage ["ping"; "--help"]
  = Dispatcher.Run (Dispatcher.help ["ping"] Examples.help_linkage) "" (Dispatcher.Return 0)
  ∧ Dispatcher.main ["ping"] Examples.help_linkage [APP_NAME; "ping"; "--help"]
    = Dispatcher.Run (Dispatcher.tool_help ["ping"] Examples.help_linkage "ping") ""
                     (Dispatcher.Return 0)
  ∧ Dispatcher.help ["ping"] Examples.help_linkage
    ≠ Dispatcher.tool_help ["ping"] Examples.help_linkage "ping".
Proof. split; [|split]; by vm_compute. Qed.

(* ===================================================================== *)
(** * The statements at concrete inputs *)
(* ===================================================================== *)

(** An entry point of an earlier build, whose tool is gone from the
    registry, survives a successful build: the installed set is larger
    than the tool names and the canonical name. *)
Lemma cmd_build_keeps_stale_entry_point :
  fst (cmd_build Examples.host_gcc Examples.stale_world) = Ok tt
  ∧ list_tools Examples.stale_world = ["ping"]
  ∧ is_Some (bin_dir (snd (cmd_build Examples.host_gcc Examples.stale_world)) !! "old")
  ∧ dom (bin_dir (snd (cmd_build Examples.host_gcc Examples.stale_world)))
    ≠ list_to_set (list_tools Examples.stale_world ++ [APP_NAME])%list.
Proof.
  split; [by vm_compute|]. split; [by vm_compute|]. split; [vm_compute; eauto|].
  apply (bool_decide_eq_false_1 _). by vm_compute.
Qed.

Lemma cmd_build_entry_points_witness :
  is_absolute (home Examples.host_gcc) = true
  ∧ plain_output Examples.ping_world (BUILD // APP_NAME)
  ∧ cmd_build Examples.host_gcc Examples.ping_world
    = (Ok tt, snd (cmd_build Examples.host_gcc Examples.ping_world))
  ∧ ∃ cc binary,
      cc_run Examples.host_gcc
             (build_cmd Examples.host_gcc cc (list_tools Examples.ping_world))
             (before_compile Examples.ping_world)
      = Built binary
      ∧ build_dir (snd (cmd_build Examples.host_gcc Examples.ping_world)) !! APP_NAME
        = Some (File binary)
      ∧ (∀ t, t ∈ (list_tools Examples.ping_world ++ [APP_NAME])%list →
              bin_dir (snd (cmd_build Examples.host_gcc Examples.ping_world)) !! t
              = Some (Link (BUILD // APP_NAME))
              ∧ stat (snd (cmd_build Examples.host_gcc Examples.ping_world)) (BIN // t)
                = Some (File binary))
      ∧ (∀ t, t ∉ (list_tools Examples.ping_world ++ [APP_NAME])%list →
              bin_dir (snd (cmd_build Examples.host_gcc Examples.ping_world)) !! t
              = bin_dir Examples.ping_world !! t)
      ∧ dom (bin_dir (snd (cmd_build Examples.host_gcc Examples.ping_world)))
        = dom (bin_dir Examples.ping_world)
          ∪ list_to_set (list_tools Examples.ping_world ++ [APP_NAME])%list.
Proof.
  split; [reflexivity|]. split; [left; vm_compute; reflexivity|].
  split; [vm_compute; reflexivity|].
  apply (cmd_build_entry_points Examples.host_gcc Examples.ping_world);
    [reflexivity | left; vm_compute; reflexivity | vm_compute; reflexivity].
Defined.

(** A tool that carries the program's own name: run through its entry
    point with an argument, the binary takes the argument for the
    subcommand; run as the canonical name with the tool as subcommand, it
    enters the tool. *)
Lemma self_named_tool_entry_point_differs :
  list_tools Examples.selfname_world = ["toolbox"]
  ∧ Re.re_match TOOL_RE "toolbox" = true
  ∧ Dispatcher.help_requested ["toolbox"; "-x"] = false
  ∧ Dispatcher.main ["toolbox"] Examples.no_linkage ["toolbox"; "-x"]
    = Dispatcher.Run "" ("Unknown command: -x" ++ Dispatcher.NL) (Dispatcher.Return 1)
  ∧ Dispatcher.main ["toolbox"] Examples.no_linkage [APP_NAME; "toolbox"; "-x"]
    = Dispatcher.Run "" "" (Dispatcher.Enter "toolbox" ["toolbox"; "-x"])
  ∧ Dispatcher.main ["toolbox"] Examples.no_linkage ["toolbox"; "-x"]
    ≠ Dispatcher.main ["toolbox"] Examples.no_linkage [APP_NAME; "toolbox"; "-x"].
Proof. repeat split; by vm_compute. Qed.

Lemma entry_point_equals_subcommand_witness :
  "Ping" ∈ ["Ping"; "echo"]
  ∧ "Ping" ≠ ""
  ∧ no_slash "Ping" = true
  ∧ Dispatcher.is_help_flag "Ping" = false
  ∧ "Ping" ≠ APP_NAME
  ∧ Dispatcher.help_requested ["Ping"; "-x"] = false
  ∧ (Dispatcher.main ["Ping"; "echo"] Examples.help_linkage ["Ping"; "-x"]
     = Dispatcher.main ["Ping"; "echo"] Examples.help_linkage [APP_NAME; "Ping"; "-x"]
     ∧ Dispatcher.main ["Ping"; "echo"] Examples.help_linkage ["Ping"; "-x"]
       = Dispatcher.Run "" "" (Dispatcher.Enter "Ping" ["Ping"; "-x"])
     ∧ ∀ entry,
         Dispatcher.observe entry
           (Dispatcher.main ["Ping"; "echo"] Examples.help_linkage ["Ping"; "-x"])
         = Dispatcher.observe entry
             (Dispatcher.main ["Ping"; "echo"] Examples.help_linkage [APP_NAME; "Ping"; "-x"])).
Proof.
  assert ("Ping" ∈ ["Ping"; "echo"]) as Hin by left.
  assert ("Ping" ≠ "") as Hnonempty by discriminate.
  assert ("Ping" ≠ APP_NAME) as Hne by (vm_compute; discriminate).
  split; [exact Hin|]. split; [exact Hnonempty|]. split; [reflexivity|].
  split; [reflexivity|]. split; [exact Hne|]. split; [reflexivity|].
  apply (entry_point_equals_subcommand ["Ping"; "echo"] Examples.help_linkage "Ping" ["-x"]);
    [exact Hin | exact Hnonempty | reflexivity | reflexivity | exact Hne | reflexivity].
Defined.

Lemma atomic_write_all_or_nothing_witness :
  pick_tmp (tmp_names Examples.host_gcc) (get_dir BUILD Examples.stale_world) = Some "tmpk3_x9a0b"
  ∧ "tmpk3_x9a0b" ≠ "main.c"
  ∧ String.concat "" ["int "; "x;"] = "int x;"
  ∧ (∀ k, k < List.length (atomic_write_ops "tmpk3_x9a0b" "main.c" ["int "; "x;"]) →
          ∃ m', run_ops (take k (atomic_write_ops "tmpk3_x9a0b" "main.c" ["int "; "x;"]))
                        (get_dir BUILD Examples.stale_world)
                = (None, m')
                ∧ m' !! "main.c" = get_dir BUILD Examples.stale_world !! "main.c"
                ∧ ∀ n, n ≠ "tmpk3_x9a0b" → m' !! n = get_dir BUILD Examples.stale_world !! n)
  ∧ last (atomic_write_ops "tmpk3_x9a0b" "main.c" ["int "; "x;"])
    = Some (Replace "tmpk3_x9a0b" "main.c")
  ∧ (get_dir BUILD Examples.stale_world !! "main.c" ≠ Some Dir →
     run_ops (atomic_write_ops "tmpk3_x9a0b" "main.c" ["int "; "x;"])
             (get_dir BUILD Examples.stale_world)
     = (None, <["main.c" := File "int x;"]> (get_dir BUILD Examples.stale_world))
     ∧ atomic_write Examples.host_gcc (BUILD // "main.c") "int x;" Examples.stale_world
       = (Ok tt, set_dir BUILD (<["main.c" := File "int x;"]> (get_dir BUILD Examples.stale_world))
                         Examples.stale_world)).
Proof.
  assert ("tmpk3_x9a0b" ≠ "main.c") as Hne by discriminate.
  split; [vm_compute; reflexivity|]. split; [exact Hne|]. split; [reflexivity|].
  apply (atomic_write_all_or_nothing Examples.host_gcc (BUILD // "main.c") "int x;"
           Examples.stale_world "tmpk3_x9a0b" ["int "; "x;"]);
    [vm_compute; reflexivity | exact Hne | reflexivity].
Defined.

Lemma cmd_create_existing_witness :
  Re.re_match TOOL_RE "ping" = true
  ∧ path_exists Examples.ping_world (TOOLS // ("ping" ++ ".c")) = true
  ∧ cmd_create Examples.host_gcc "ping" Examples.ping_world
    = (Died already_exists_msg, Examples.ping_world).
Proof.
  split; [reflexivity|]. split; [vm_compute; reflexivity|].
  apply (cmd_create_existing Examples.host_gcc "ping" Examples.ping_world);
    [reflexivity | vm_compute; reflexivity].
Defined.

Lemma cmd_create_frame_witness :
  tools_dir Examples.ping_world !! ("echo" ++ ".c") = None
  ∧ cmd_create Examples.host_gcc "echo" Examples.ping_world
    = (Ok tt, snd (cmd_create Examples.host_gcc "echo" Examples.ping_world))
  ∧ (tools_dir (snd (cmd_create Examples.host_gcc "echo" Examples.ping_world)) !! ("echo" ++ ".c")
     = Some (File (tool_template "echo"))
     ∧ stem ("echo" ++ ".c") = "echo"
     ∧ dom (tools_dir (snd (cmd_create Examples.host_gcc "echo" Examples.ping_world)))
       = {[ "echo" ++ ".c" ]} ∪ dom (tools_dir Examples.ping_world)
     ∧ size (tools_dir (snd (cmd_create Examples.host_gcc "echo" Examples.ping_world)))
       = S (size (tools_dir Examples.ping_world))
     ∧ (∀ f, f ≠ "echo" ++ ".c" →
             tools_dir (snd (cmd_create Examples.host_gcc "echo" Examples.ping_world)) !! f
             = tools_dir Examples.ping_world !! f)
     ∧ build_dir (snd (cmd_create Examples.host_gcc "echo" Examples.ping_world))
       = build_dir Examples.ping_world
     ∧ bin_dir (snd (cmd_create Examples.host_gcc "echo" Examples.ping_world))
       = bin_dir Examples.ping_world
     ∧ elsewhere (snd (cmd_create Examples.host_gcc "echo" Examples.ping_world))
       = elsewhere Examples.ping_world).
Proof.
  split; [vm_compute; reflexivity|]. split; [vm_compute; reflexivity|].
  apply (cmd_create_frame Examples.host_gcc "echo" Examples.ping_world);
    vm_compute; reflexivity.
Defined.

(** An empty registry on a machine without a compiler: the build stops
    with the no-compiler error, not with the no-tools error. *)
Lemma cmd_build_empty_registry_no_compiler :
  list_tools Examples.empty_world = []
  ∧ cmd_build Examples.host_bare Examples.empty_world
    = (Died no_compiler_msg, Examples.empty_world)
  ∧ fst (cmd_build Examples.host_bare Examples.empty_world) ≠ Died no_tools_msg.
Proof. repeat split; by vm_compute. Qed.

Lemma cmd_build_empty_registry_witness :
  (is_Some (which Examples.host_gcc "gcc") ∨ is_Some (which Examples.host_gcc "clang"))
  ∧ list_tools Examples.empty_world = []
  ∧ cmd_build Examples.host_gcc Examples.empty_world
    = (Died no_tools_msg, Examples.empty_world).
Proof.
  assert (is_Some (which Examples.host_gcc "gcc") ∨ is_Some (which Examples.host_gcc "clang"))
    as Hcc by (left; exists "/usr/bin/gcc"; reflexivity).
  split; [exact Hcc|]. split; [vm_compute; reflexivity|].
  apply (cmd_build_empty_registry Examples.host_gcc Examples.empty_world);
    [exact Hcc | vm_compute; reflexivity].
Defined.


(* ===================================================================== *)
(** * manager.py: the same operations in the simpler variant *)
(* ===================================================================== *)

(** [create_tool] on a module that exists: a message, nothing written. *)
Lemma create_tool_existing line w :
  Manager.is_valid_tool_name (Manager.strip line) = true →
  path_exists w (TOOLS // (Manager.strip line ++ ".c")) = true →
  Manager.create_tool line w
  = print ("Tool " ++ Manager.strip line ++ " already exists. Aborting to avoid overwrite.") w.
Proof.
  intros Hv Hex. unfold Manager.create_tool, bind, get. rewrite Hv.
  cbn [negb]. cbv beta. by rewrite Hex.
Qed.

(** [construct] on an empty listing: two messages, nothing written, and
    no compiler is looked for. *)
Lemma construct_empty h w :
  Manager.gather w = [] →
  Manager.construct h w
  = (Ok tt, World (tools_dir w) (build_dir w) (bin_dir w) (elsewhere w)
                  ((console w ++ ["Gathering tools..."])
                   ++ ["No tools found. Please 'Load' a tool first."])%list).
Proof.
  intros He. unfold Manager.construct, bind, get, print.
  unfold Manager.gather in *. cbn [tools_dir build_dir bin_dir elsewhere console].
  by rewrite He.
Qed.

(** The binary of manager.py under its canonical name lists the commands
    and returns; it has no subcommands and no help flags. *)
Lemma manager_main_canonical tools rest :
  Dispatcher.r_finish (Manager.main tools (Manager.OUTPUT_BIN :: rest)) = Dispatcher.Return 0.
Proof. done. Qed.

Example manager_main_help_flag :
  Manager.main ["ping"] ["ping"; "--help"]
  = Dispatcher.Run "" "" (Dispatcher.Enter "ping" ["ping"; "--help"]).
Proof. done. Qed.


(* ===================================================================== *)
(** * More on the registry and the build of toolbox.py *)
(* ===================================================================== *)

Lemma substring_whole t : substring 0 (String.length t) t = t.
Proof. induction t as [|c t IH]; simpl; [done | by rewrite IH]. Qed.

Lemma substring_app_suffix s t :
  substring (String.length s) (String.length t) (s ++ t) = t.
Proof.
  induction s as [|c s IH]; [apply substring_whole|].
  rewrite append_cons. simpl. apply IH.
Qed.

Lemma endswith_app s t : endswith (s ++ t) t = true.
Proof.
  unfold endswith. rewrite length_append.
  replace (String.length s + String.length t - String.length t)
    with (String.length s) by lia.
  rewrite substring_app_suffix, String.eqb_refl.
  apply andb_true_iff. split; [|done]. apply Nat.leb_le. lia.
Qed.

Lemma glob_c_insert (m : gmap string node) f x :
  m !! f = None → endswith f ".c" = true → glob_c (<[f := x]> m) ≡ₚ f :: glob_c m.
Proof.
  intros Hf He. unfold glob_c.
  rewrite (map_to_list_insert m f x Hf). simpl. by rewrite filter_cons_True.
Qed.

(** X1: after a successful [cmd_create] of a name whose module file was
    absent, [list_tools] holds the name: the new listing is the old one
    with the name added, and it is in order. *)
Theorem cmd_create_then_list (h : host) (n : string) (w w' : world) :
  tools_dir w !! (n ++ ".c") = None →
  cmd_create h n w = (Ok tt, w') →
  n ∈ list_tools w'
  ∧ list_tools w' ≡ₚ n :: list_tools w
  ∧ StronglySorted String.le (list_tools w').
Proof.
  intros Hnew (Hvalid & _ & ->)%cmd_create_ok.
  assert (list_tools
            (World (<[n ++ ".c" := File (tool_template n)]> (tools_dir w))
                   (build_dir w) (bin_dir w) (elsewhere w)
                   (console w ++ ["[+] Created " ++ path_str h (TOOLS // (n ++ ".c"))]))
          ≡ₚ n :: list_tools w) as Hperm.
  { unfold list_tools. cbn [tools_dir]. rewrite !sorted_perm.
    rewrite glob_c_insert by (done || apply endswith_app).
    rewrite fmap_cons. by rewrite stem_module_file by by apply valid_nonempty. }
  split; [|split; [done | apply list_tools_sorted]].
  rewrite Hperm. left.
Qed.

Lemma cmd_create_then_list_witness :
  tools_dir Examples.ping_world !! ("echo" ++ ".c") = None
  ∧ cmd_create Examples.host_gcc "echo" Examples.ping_world
    = (Ok tt, snd (cmd_create Examples.host_gcc "echo" Examples.ping_world))
  ∧ ("echo" ∈ list_tools (snd (cmd_create Examples.host_gcc "echo" Examples.ping_world))
     ∧ list_tools (snd (cmd_create Examples.host_gcc "echo" Examples.ping_world))
       ≡ₚ "echo" :: list_tools Examples.ping_world
     ∧ StronglySorted String.le
         (list_tools (snd (cmd_create Examples.host_gcc "echo" Examples.ping_world)))).
Proof.
  split; [vm_compute; reflexivity|]. split; [vm_compute; reflexivity|].
  apply (cmd_create_then_list Examples.host_gcc "echo" Examples.ping_world);
    vm_compute; reflexivity.
Defined.

(** A path that [exists()] does not see is not a directory. *)
Lemma not_exists_not_dir w p : path_exists w p = false → lstat w p ≠ Some Dir.
Proof.
  unfold path_exists, stat. simpl. intros Hex Hl. by rewrite Hl in Hex.
Qed.

Lemma atomic_write_never_dies h p data w msg w' : atomic_write h p data w ≠ (Died msg, w').
Proof.
  unfold atomic_write. destruct (pick_tmp _ _); [|done].
  by destruct (run_ops _ _) as [[e|] m'].
Qed.

(** X2: a [cmd_create] that ends by [die] has written nothing, the
    world is exactly as it was, and it has one of two reasons: the name
    does not match [TOOL_RE], or the name is valid and [exists()] sees
    its module file. *)
Theorem cmd_create_die_no_trace (h : host) (n : string) (w w' : world) (msg : string) :
  cmd_create h n w = (Died msg, w') →
  w' = w
  ∧ ((msg = invalid_name_msg ∧ Re.re_match TOOL_RE n = false)
     ∨ (msg = already_exists_msg ∧ Re.re_match TOOL_RE n = true
        ∧ path_exists w (TOOLS // (n ++ ".c")) = true)).
Proof.
  rewrite cmd_create_unfold.
  destruct (Re.re_match TOOL_RE n); [|intros [= <- <-]; auto].
  destruct (path_exists w _) eqn:Hex; [intros [= <- <-]; auto|].
  destruct (atomic_write h _ _ w) as [[[]|m|e] w1] eqn:Haw; [done | | done].
  by apply atomic_write_never_dies in Haw.
Qed.

Lemma cmd_create_die_no_trace_witness :
  cmd_create Examples.host_gcc "Ping" Examples.ping_world
  = (Died invalid_name_msg, Examples.ping_world)
  ∧ Examples.ping_world = Examples.ping_world
  ∧ ((invalid_name_msg = invalid_name_msg ∧ Re.re_match TOOL_RE "Ping" = false)
     ∨ (invalid_name_msg = already_exists_msg ∧ Re.re_match TOOL_RE "Ping" = true
        ∧ path_exists Examples.ping_world (TOOLS // ("Ping" ++ ".c")) = true)).
Proof.
  split; [vm_compute; reflexivity|].
  apply (cmd_create_die_no_trace Examples.host_gcc "Ping" Examples.ping_world
           Examples.ping_world invalid_name_msg).
  vm_compute; reflexivity.
Defined.

(** [cmd_build], step by step. *)
(** [atomic_write] goes through when a temporary name is free and the
    target is not a directory. *)
Lemma atomic_write_succeeds h p data w tmp :
  pick_tmp (tmp_names h) (get_dir (parent p) w) = Some tmp →
  get_dir (parent p) w !! name p ≠ Some Dir →
  atomic_write h p data w
  = (Ok tt, set_dir (parent p) (<[name p := File data]> (get_dir (parent p) w)) w).
Proof.
  intros Hpick Hdir. unfold atomic_write. rewrite Hpick.
  pose proof (pick_tmp_Some _ _ _ Hpick) as [Hfree _].
  rewrite (run_atomic_write_ops_whole _ _ _ Hfree).
  destruct (decide (tmp = name p)); [done|].
  by destruct (get_dir (parent p) w !! name p) as [[]|].
Qed.

Lemma cmd_build_unfold h w :
  cmd_build h w
  = match find_cc h w with
    | (Ok cc, w0) =>
        match list_tools w0 with
        | [] => (Died no_tools_msg, w0)
        | ts =>
            match atomic_write h (BUILD // "main.c") (dispatcher_template ts) w0 with
            | (Ok _, w1) =>
                let w2 := snd (print "[*] Building..." w1) in
                match check_call h (build_cmd h cc ts) (BUILD // APP_NAME) w2 with
                | (Ok _, w2') =>
                    match install_links (link_to h BIN (BUILD // APP_NAME))
                            (ts ++ [APP_NAME]) w2' with
                    | (Ok _, w3) =>
                        (Ok tt, snd (print (path_hint h) (snd (print "[+] Build complete" w3))))
                    | (Died m, w3) => (Died m, w3)
                    | (Raised e, w3) => (Raised e, w3)
                    end
                | (Died m, w2') => (Died m, w2')
                | (Raised e, w2') => (Raised e, w2')
                end
            | (Died m, w1) => (Died m, w1)
            | (Raised e, w1) => (Raised e, w1)
            end
        end
    | (Died m, w0) => (Died m, w0)
    | (Raised e, w0) => (Raised e, w0)
    end.
Proof.
  unfold cmd_build, bind.
  destruct (find_cc h w) as [[cc|m|e] w0]; [|done..].
  unfold get. destruct (list_tools w0) as [|t ts]; [done|].
  destruct (atomic_write h _ _ w0) as [[[]|m|e] w1]; [|done..].
  unfold print at 1. cbn [snd].
  fold (build_cmd h cc (t :: ts)).
  destruct (check_call h _ _ _) as [[[]|m|e] w2']; [|done..].
  destruct (install_links _ _ _) as [[[]|m|e] w3]; done.
Qed.

(** Whatever its outcome, the installation loop changes [BIN] only. *)
Lemma install_links_frame out names w o w' :
  install_links out names w = (o, w') → ∃ m, w' = set_dir BIN m w.
Proof.
  induction names as [|t names IH] in w |- *.
  - intros [= _ <-]. exists (bin_dir w). by destruct w.
  - rewrite install_links_step.
    destruct (lstat w (BIN // t)) as [[]|]; destruct (path_exists w (BIN // t));
      try (intros [= _ <-]; exists (bin_dir w); by destruct w).
    all: intros [m ->]%IH; exists m; by destruct w.
Qed.

(** With a plain output name, the compiler call changes the directory of
    its output only, whatever its outcome. *)
Lemma check_call_frame h cmd out w o w' :
  plain_output w out →
  check_call h cmd out w = (o, w') → ∃ m, w' = set_dir (parent out) m w.
Proof.
  intros Hplain. unfold check_call.
  destruct (cc_run h cmd w); intros [= _ <-].
  - rewrite write_output_plain by done. unfold put. eauto.
  - exists (get_dir (parent out) w). by rewrite set_get_dir.
  - rewrite remove_output_plain by done. eauto.
  - exists (get_dir (parent out) w). by rewrite set_get_dir.
  - exists (get_dir (parent out) w). by rewrite set_get_dir.
Qed.

(** X4: when [build/toolbox] is no symlink and no directory, then
    whatever its outcome (success, [die], exception), [cmd_build] does
    not change the registry directory nor anything outside of [ROOT]:
    its writes go to [build/] and [bin/]. *)
Theorem cmd_build_keeps_registry (h : host) (w : world) :
  plain_output w (BUILD // APP_NAME) →
  tools_dir (snd (cmd_build h w)) = tools_dir w
  ∧ elsewhere (snd (cmd_build h w)) = elsewhere w.
Proof.
  intros Hplain. rewrite cmd_build_unfold.
  destruct (find_cc_cases h w) as [(cc & -> & _) | (_ & _ & ->)]; [|done].
  cbv beta iota.
  destruct (list_tools w) as [|t ts]; [done|]. cbv zeta.
  destruct (atomic_write h _ _ w) as [o1 w1] eqn:Haw.
  destruct o1 as [[]|m|e];
    [|apply atomic_write_frame in Haw as [m1 ->]; done..].
  apply atomic_write_ok in Haw. cbn [parent name get_dir set_dir] in Haw. subst w1.
  destruct (check_call h _ _ _) as [o2 w2] eqn:Hcc.
  apply check_call_frame in Hcc as [m2 ->].
  2:{ unfold plain_output, lstat, print in *. cbn [snd parent name get_dir build_dir] in *.
      by rewrite lookup_insert_ne. }
  cbn [parent set_dir snd print tools_dir build_dir bin_dir elsewhere console].
  destruct o2 as [[]|m|e]; [|done..].
  destruct (install_links _ _ _) as [o3 w3] eqn:Hin.
  apply install_links_frame in Hin as [m3 ->].
  by destruct o3 as [[]|m|e].
Qed.

Lemma cmd_build_keeps_registry_witness :
  plain_output Examples.stale_world (BUILD // APP_NAME)
  ∧ tools_dir (snd (cmd_build Examples.host_gcc Examples.stale_world))
    = tools_dir Examples.stale_world
  ∧ elsewhere (snd (cmd_build Examples.host_gcc Examples.stale_world))
    = elsewhere Examples.stale_world.
Proof.
  split; [right; exists "ELF0"; vm_compute; reflexivity|].
  apply (cmd_build_keeps_registry Examples.host_gcc Examples.stale_world).
  right; exists "ELF0"; vm_compute; reflexivity.
Defined.

(** Up to the compiler call, when the dispatcher source can be written. *)
Lemma cmd_build_to_compiler h w cc :
  find_cc h w = (Ok cc, w) →
  list_tools w ≠ [] →
  is_Some (pick_tmp (tmp_names h) (build_dir w)) →
  build_dir w !! "main.c" ≠ Some Dir →
  cmd_build h w
  = match check_call h (build_cmd h cc (list_tools w)) (BUILD // APP_NAME)
            (before_compile w) with
    | (Ok _, w2) =>
        match install_links (link_to h BIN (BUILD // APP_NAME))
                (list_tools w ++ [APP_NAME]) w2 with
        | (Ok _, w3) =>
            (Ok tt, snd (print (path_hint h) (snd (print "[+] Build complete" w3))))
        | (Died m, w3) => (Died m, w3)
        | (Raised e, w3) => (Raised e, w3)
        end
    | (Died m, w2) => (Died m, w2)
    | (Raised e, w2) => (Raised e, w2)
    end.
Proof.
  intros Hcc Hts [tmp Hpick] Hdir.
  rewrite cmd_build_unfold, Hcc.
  destruct (list_tools w) as [|t ts] eqn:Hl; [done|].
  cbv beta iota zeta.
  rewrite (atomic_write_succeeds h (BUILD // "main.c")
             (dispatcher_template (t :: ts)) w tmp Hpick Hdir).
  unfold print at 1. cbn [snd set_dir parent name get_dir tools_dir build_dir
                            bin_dir elsewhere console].
  unfold before_compile. by rewrite Hl.
Qed.

(** The world that a failed compiler call leaves behind. *)
Lemma cmd_build_compile_failure_run h w cc :
  find_cc h w = (Ok cc, w) →
  list_tools w ≠ [] →
  is_Some (pick_tmp (tmp_names h) (build_dir w)) →
  build_dir w !! "main.c" ≠ Some Dir →
  cc_run h (build_cmd h cc (list_tools w)) (before_compile w) = CompileError
  ∨ cc_run h (build_cmd h cc (list_tools w)) (before_compile w) = LinkError →
  fst (cmd_build h w) = Raised CalledProcessError
  ∧ (snd (cmd_build h w) = before_compile w
     ∨ snd (cmd_build h w) = remove_output (BUILD // APP_NAME) (before_compile w)).
Proof.
  intros Hcc Hts Hpick Hdir Hrun.
  rewrite (cmd_build_to_compiler h w cc Hcc Hts Hpick Hdir).
  unfold check_call. destruct Hrun as [-> | ->]; auto.
Qed.

Lemma remove_output_frame out w :
  ∃ m, remove_output out w = set_dir (parent out) m w
       ∧ (∀ f, f ≠ name out → m !! f = get_dir (parent out) w !! f)
       ∧ (m !! name out = get_dir (parent out) w !! name out ∨ m !! name out = None).
Proof.
  unfold remove_output.
  destruct (lstat w out) as [[]|] eqn:Hl.
  3,4: exists (get_dir (parent out) w); rewrite set_get_dir; auto.
  all: eexists; split; [reflexivity|]; split;
    [intros f Hf; by rewrite lookup_delete_ne | right; apply lookup_delete_eq].
Qed.

(** X5: when the compiler exits with an error, [cmd_build] raises
    [CalledProcessError] with the new dispatcher source written; the
    installation loop is not reached, so [bin/] is as the last
    successful build left it. Of [build/] only [main.c] and the binary
    can have changed: the binary of the last build stays after a compile
    error, and the name is free after a link error, so that the entry
    points dangle. *)
Theorem cmd_build_compile_failure (h : host) (w : world) (cc : string) :
  find_cc h w = (Ok cc, w) →
  list_tools w ≠ [] →
  is_Some (pick_tmp (tmp_names h) (build_dir w)) →
  build_dir w !! "main.c" ≠ Some Dir →
  plain_output w (BUILD // APP_NAME) →
  cc_run h (build_cmd h cc (list_tools w)) (before_compile w) = CompileError
  ∨ cc_run h (build_cmd h cc (list_tools w)) (before_compile w) = LinkError →
  fst (cmd_build h w) = Raised CalledProcessError
  ∧ tools_dir (snd (cmd_build h w)) = tools_dir w
  ∧ bin_dir (snd (cmd_build h w)) = bin_dir w
  ∧ elsewhere (snd (cmd_build h w)) = elsewhere w
  ∧ build_dir (snd (cmd_build h w)) !! "main.c"
    = Some (File (dispatcher_template (list_tools w)))
  ∧ (∀ f, f ≠ "main.c" → f ≠ APP_NAME →
          build_dir (snd (cmd_build h w)) !! f = build_dir w !! f)
  ∧ (cc_run h (build_cmd h cc (list_tools w)) (before_compile w) = CompileError →
     build_dir (snd (cmd_build h w)) !! APP_NAME = build_dir w !! APP_NAME)
  ∧ (cc_run h (build_cmd h cc (list_tools w)) (before_compile w) = LinkError →
     build_dir (snd (cmd_build h w)) !! APP_NAME = None).
Proof.
  intros Hcc Hts Hpick Hdir Hplain Hrun.
  rewrite (cmd_build_to_compiler h w cc Hcc Hts Hpick Hdir).
  unfold check_call.
  assert (build_dir (before_compile w) !! "main.c"
          = Some (File (dispatcher_template (list_tools w)))) as Hmain.
  { unfold before_compile. cbn [build_dir]. apply lookup_insert_eq. }
  assert (∀ f, f ≠ "main.c" → build_dir (before_compile w) !! f = build_dir w !! f) as Hrest.
  { intros f Hf. unfold before_compile. cbn [build_dir]. by rewrite lookup_insert_ne. }
  destruct Hrun as [Hrun | Hrun]; rewrite Hrun; cbn [fst snd].
  - split; [done|]. split; [done|]. split; [done|]. split; [done|]. split; [done|].
    split; [auto|]. split; [intros _; by apply Hrest | done].
  - rewrite remove_output_plain by by apply plain_output_before_compile.
    cbn [parent name get_dir set_dir tools_dir build_dir bin_dir elsewhere].
    split; [done|]. split; [by destruct w|]. split; [by destruct w|].
    split; [by destruct w|].
    split; [by rewrite lookup_delete_ne|].
    split; [intros f Hf1 Hf2; rewrite lookup_delete_ne by done; by apply Hrest|].
    split; [done|]. intros _. apply lookup_delete_eq.
Qed.






(* ===================================================================== *)
(** * More on the two dispatchers *)
(* ===================================================================== *)

Section DispatcherOutcomes.

Import Dispatcher.

Variable tools : list string.
Variable L : linkage.

Lemma lookup_tool_Some_elem n e :
  lookup_tool tools L n = Some e → t_name e = n ∧ n ∈ tools.
Proof.
  intros He. pose proof (lookup_tool_name tools L n e He) as Hn. split; [done|].
  unfold lookup_tool, table in He. apply List.find_some in He as [Hin _].
  apply list_elem_of_In, list_elem_of_fmap in Hin as (t & -> & Ht).
  simpl in Hn. by subst.
Qed.

Lemma lookup_tool_None n : lookup_tool tools L n = None → n ∉ tools.
Proof.
  intros Hnone Hin. by destruct (lookup_tool_elem tools L n Hin) as (e & He & _); congruence.
Qed.

Lemma dispatch_outcomes n argv :
  (dispatch tools L n argv = Run "" "" (Enter n argv)
   ∧ n ∈ tools ∧ help_requested argv = false)
  ∨ (dispatch tools L n argv = Run (tool_help tools L n) "" (Return 0))
  ∨ (dispatch tools L n argv = Run "" ("Unknown command: " ++ n ++ NL) (Return 1)
     ∧ n ∉ tools).
Proof.
  unfold dispatch. destruct (help_requested argv); [auto|].
  destruct (lookup_tool tools L n) as [e|] eqn:He.
  - apply lookup_tool_Some_elem in He as [-> Hin]. auto.
  - apply lookup_tool_None in He. auto.
Qed.

(** X8: every run of the generated binary ends in one of three ways. It
    enters the function of a tool of its table, printing nothing itself,
    on arguments whose second element is not a help flag; or it returns
    0 with nothing on the error stream (the help texts); or it returns 1
    with nothing on standard output and one line on the error stream that
    names a command which is not in the table. *)
Theorem main_outcomes (argv : list string) :
  (∃ fn av, main tools L argv = Run "" "" (Enter fn av)
            ∧ fn ∈ tools ∧ help_requested av = false)
  ∨ (r_finish (main tools L argv) = Return 0 ∧ r_stderr (main tools L argv) = "")
  ∨ (∃ n, main tools L argv = Run "" ("Unknown command: " ++ n ++ NL) (Return 1)
          ∧ n ∉ tools).
Proof.
  assert (∀ n av r, r = dispatch tools L n av →
            (∃ fn av', r = Run "" "" (Enter fn av') ∧ fn ∈ tools ∧ help_requested av' = false)
            ∨ (r_finish r = Return 0 ∧ r_stderr r = "")
            ∨ (∃ n', r = Run "" ("Unknown command: " ++ n' ++ NL) (Return 1) ∧ n' ∉ tools))
    as Hd.
  { intros n av r ->.
    destruct (dispatch_outcomes n av) as [(-> & ? & ?) | [-> | [-> ?]]]; eauto 8. }
  unfold main.
  destruct argv as [|a0 rest]; [by eapply Hd|].
  destruct (basename a0) as [b a0'].
  destruct (help_requested (a0' :: rest)); [auto|].
  destruct (String.eqb b APP_NAME); [|by eapply Hd].
  destruct rest as [|n rest]; [auto|]. by eapply Hd.
Qed.

(** X9: the binary generated by manager.py, by contrast, knows nothing
    but the program name [basename(argv[0])]. Under its canonical name it
    prints the list of commands and returns 0, whatever the arguments
    are. Under another name that is in the table it prints nothing and
    enters the tool of exactly that name with all its arguments, help
    flags included. Under a name that is not in the table it prints
    that name as an unknown command on standard output and returns 1. *)
Theorem manager_main_outcomes (a0 : string) (rest : list string) :
  ((basename a0).1 = Manager.OUTPUT_BIN →
   Manager.main tools (a0 :: rest)
   = Run ("Available commands:" ++ NL
          ++ String.concat "" ((λ t, "  " ++ t ++ NL) <$> tools)) "" (Return 0))
  ∧ ((basename a0).1 ≠ Manager.OUTPUT_BIN → (basename a0).1 ∈ tools →
     Manager.main tools (a0 :: rest)
     = Run "" "" (Enter (basename a0).1 ((basename a0).2 :: rest)))
  ∧ ((basename a0).1 ≠ Manager.OUTPUT_BIN → (basename a0).1 ∉ tools →
     Manager.main tools (a0 :: rest)
     = Run ("Unknown command: " ++ (basename a0).1 ++ NL) "" (Return 1)).
Proof.
  unfold Manager.main. destruct (basename a0) as [prog arg0]. cbn [fst snd].
  destruct (String.eqb_spec prog Manager.OUTPUT_BIN) as [Heq | Hne].
  { split; [done|]. split; intros Hne; by destruct Hne. }
  split; [done|].
  destruct (List.find _ tools) as [t|] eqn:Hf.
  - apply List.find_some in Hf as [Hin Ht%String.eqb_eq]. subst t.
    split; [done|]. intros _ Hnin. destruct Hnin. by apply list_elem_of_In.
  - split; [|done]. intros _ Hin%list_elem_of_In.
    eapply List.find_none in Hf; [|exact Hin]. by rewrite String.eqb_refl in Hf.
Qed.

End DispatcherOutcomes.

(* ===================================================================== *)
(** * The menu of toolbox.py *)
(* ===================================================================== *)

Lemma select_index_moves keys enter rest idx :
  no_enter keys → enter = 10%Z ∨ enter = 13%Z → (0 ≤ idx < 4)%Z →
  Menu.select_index (keys ++ enter :: rest) idx = Some ((idx + net_moves keys) `mod` 4)%Z.
Proof.
  intros Hkeys Henter. induction Hkeys as [|key keys [H10 H13] Hkeys IH] in idx |- *;
    intros Hidx.
  - simpl. destruct Henter as [-> | ->]; simpl;
      by rewrite Z.add_0_r, Z.mod_small.
  - cbn [app Menu.select_index net_moves].
    change (Z.of_nat (List.length Menu.options)) with 4%Z.
    destruct ((key =? Menu.KEY_UP)%Z || (key =? Menu.ORD_K)%Z).
    { rewrite IH by (apply Z.mod_pos_bound; lia).
      f_equal. rewrite Zplus_mod_idemp_l. f_equal. lia. }
    destruct ((key =? Menu.KEY_DOWN)%Z || (key =? Menu.ORD_J)%Z).
    { rewrite IH by (apply Z.mod_pos_bound; lia).
      f_equal. rewrite Zplus_mod_idemp_l. f_equal. lia. }
    assert ((key =? 10)%Z || (key =? 13)%Z = false) as ->.
    { apply orb_false_iff. split; by apply Z.eqb_neq. }
    rewrite IH by done. f_equal.
Qed.

(** X10: what [menu_select] returns depends on the keys before the
    first Enter only through the net number of steps down, modulo the
    four options: the selection wraps around at both ends and other keys
    do not count. *)
Theorem menu_select_by_net_moves (keys : list Z) (enter : Z) (rest : list Z)
    (typed : string) :
  no_enter keys →
  enter = 10%Z ∨ enter = 13%Z →
  Menu.menu_select (keys ++ enter :: rest) typed
  = Some (match (net_moves keys `mod` 4)%Z with
          | 0%Z => ("create",
                    if String.eqb (Manager.strip typed) "" then None
                    else Some (Manager.strip typed))
          | 1%Z => ("build", None)
          | 2%Z => ("list", None)
          | _ => ("exit", None)
          end).
Proof.
  intros Hkeys Henter. unfold Menu.menu_select.
  rewrite (select_index_moves keys enter rest 0 Hkeys Henter) by lia.
  rewrite Z.add_0_l.
  pose proof (Z.mod_pos_bound (net_moves keys) 4 ltac:(lia)) as Hm.
  remember (net_moves keys `mod` 4)%Z as m eqn:Heqm. clear Heqm.
  assert (m = 0 ∨ m = 1 ∨ m = 2 ∨ m = 3)%Z as [-> | [-> | [-> | ->]]] by lia; done.
Qed.

Lemma menu_select_by_net_moves_witness :
  no_enter Cases.some_keys
  ∧ (13 = 10 ∨ 13 = 13)%Z
  ∧ Menu.menu_select (Cases.some_keys ++ 13%Z :: [258%Z])%list "x"
    = Some (match (net_moves Cases.some_keys `mod` 4)%Z with
            | 0%Z => ("create",
                      if String.eqb (Manager.strip "x") "" then None
                      else Some (Manager.strip "x"))
            | 1%Z => ("build", None)
            | 2%Z => ("list", None)
            | _ => ("exit", None)
            end).
Proof.
  assert (no_enter Cases.some_keys) as Hk by (repeat constructor; discriminate).
  assert (13 = 10 ∨ 13 = 13)%Z as He by (right; reflexivity).
  split; [exact Hk|]. split; [exact He|].
  exact (menu_select_by_net_moves Cases.some_keys 13 [258%Z] "x" Hk He).
Defined.

Lemma rstrip_no_trailing_space s t c :
  Manager.rstrip s = t ++ String c "" → Manager.is_space c = false.
Proof.
  induction s as [|a s IH] in t |- *; [by destruct t|].
  cbn [Manager.rstrip]. destruct (Manager.rstrip s) as [|b r] eqn:Hr.
  - destruct (Manager.is_space a) eqn:Ha; [by destruct t|].
    destruct t as [|a' t]; [by intros [= ->]|].
    rewrite append_cons. intros [= _ Ht]. by destruct t.
  - destruct t as [|a' t]; [done|].
    rewrite append_cons. intros [= _ Ht]. by apply (IH t).
Qed.

Lemma strip_no_trailing_newline typed t : Manager.strip typed ≠ t ++ String LF "".
Proof.
  unfold Manager.strip. intros H%rstrip_no_trailing_space. done.
Qed.

Lemma menu_select_create_name keys typed n :
  Menu.menu_select keys typed = Some ("create", Some n) →
  n = Manager.strip typed ∧ n ≠ "".
Proof.
  unfold Menu.menu_select. destruct (Menu.select_index keys 0); [|done].
  destruct (String.eqb _ "Create tool").
  - destruct (String.eqb_spec (Manager.strip typed) ""); [done|]. by intros [= <-].
  - by repeat case_match.
Qed.

(** X11: a name that comes from the menu has been stripped, so it does
    not end in a newline: for such a name [validate_tool] accepts exactly
    the identifiers of the grammar. *)
Theorem menu_name_validated_exactly (keys : list Z) (typed n : string) (w : world) :
  Menu.menu_select keys typed = Some ("create", Some n) →
  n = Manager.strip typed
  ∧ n ≠ ""
  ∧ (validate_tool n w = (Ok n, w) ↔ ident n).
Proof.
  intros [-> Hne]%menu_select_create_name. split; [done|]. split; [done|].
  rewrite validate_tool_ok_iff. split; [|auto].
  intros [H | (t & Ht & _)]; [done|]. by apply strip_no_trailing_newline in Ht.
Qed.

Lemma menu_name_validated_exactly_witness :
  Menu.menu_select [10%Z] Cases.typed_ping = Some ("create", Some "ping")
  ∧ ("ping" = Manager.strip Cases.typed_ping
     ∧ "ping" ≠ ""
     ∧ (validate_tool "ping" Examples.empty_world = (Ok "ping", Examples.empty_world)
        ↔ ident "ping")).
Proof.
  split; [vm_compute; reflexivity|].
  apply (menu_name_validated_exactly [10%Z] Cases.typed_ping "ping" Examples.empty_world).
  vm_compute; reflexivity.
Defined.

Lemma cmd_menu_step h show keys typed enter ttys w action name :
  Menu.menu_select keys typed = Some (action, name) →
  String.eqb action "exit" = false →
  Menu.cmd_menu h show (Menu.Keys keys typed enter :: ttys) w
  = match Menu.menu_action h show action name w with
    | (Ok _, w') => if enter then Menu.cmd_menu h show ttys w' else (Menu.EndOfInput, w')
    | (o, w') => (Menu.end_of o, w')
    end.
Proof. intros Hsel Hexit. cbn [Menu.cmd_menu]. by rewrite Hsel, Hexit. Qed.

(** X12: in the menu, a [cmd_create] that dies (the name is invalid or
    the module exists) does not end the menu: the [SystemExit] is caught,
    its status is printed, no file changes, and the menu goes on with the
    next turn. *)
Theorem cmd_menu_create_refused (h : host) (show : exn → string) (keys : list Z)
    (typed n : string) (ttys : list Menu.tty) (w : world) :
  Menu.menu_select keys typed = Some ("create", Some n) →
  Re.re_match TOOL_RE n = false ∨ path_exists w (TOOLS // (n ++ ".c")) = true →
  Menu.cmd_menu h show (Menu.Keys keys typed true :: ttys) w
  = Menu.cmd_menu h show ttys (snd (print "1" w)).
Proof.
  intros Hsel Hbad. rewrite (cmd_menu_step _ _ _ _ _ _ _ _ _ Hsel) by done.
  apply menu_select_create_name in Hsel as [_ Hne].
  unfold Menu.menu_action. cbn [String.eqb Ascii.eqb Bool.eqb andb].
  destruct n as [|c n]; [done|]. rewrite cmd_create_unfold.
  destruct Hbad as [-> | Hex]; [done|].
  destruct (Re.re_match TOOL_RE (String c n)); [|done]. by rewrite Hex.
Qed.

Lemma cmd_menu_create_refused_witness :
  Menu.menu_select [10%Z] Cases.typed_ping = Some ("create", Some "ping")
  ∧ (Re.re_match TOOL_RE "ping" = false
     ∨ path_exists Examples.ping_world (TOOLS // ("ping" ++ ".c")) = true)
  ∧ Menu.cmd_menu Examples.host_gcc Cases.show
      [Menu.Keys [10%Z] Cases.typed_ping true; Menu.Keys [107%Z; 10%Z] "" true]
      Examples.ping_world
    = Menu.cmd_menu Examples.host_gcc Cases.show [Menu.Keys [107%Z; 10%Z] "" true]
        (snd (print "1" Examples.ping_world)).
Proof.
  assert (Menu.menu_select [10%Z] Cases.typed_ping = Some ("create", Some "ping")) as Hs
    by (vm_compute; reflexivity).
  assert (Re.re_match TOOL_RE "ping" = false
          ∨ path_exists Examples.ping_world (TOOLS // ("ping" ++ ".c")) = true) as Hb
    by (right; vm_compute; reflexivity).
  split; [exact Hs|]. split; [exact Hb|].
  exact (cmd_menu_create_refused Examples.host_gcc Cases.show [10%Z] Cases.typed_ping "ping"
           [Menu.Keys [107%Z; 10%Z] "" true] Examples.ping_world Hs Hb).
Defined.

(** X13: in the menu, Build on an empty registry ends the whole program:
    the [SystemExit] of [die] is not an [Exception], so it is not caught;
    whatever keys follow are not read, and no file has changed. *)
Theorem cmd_menu_build_dies (h : host) (show : exn → string) (keys : list Z)
    (typed : string) (enter : bool) (ttys : list Menu.tty) (w : world) :
  Menu.menu_select keys typed = Some ("build", None) →
  list_tools w = [] →
  ∃ msg, Menu.cmd_menu h show (Menu.Keys keys typed enter :: ttys) w = (Menu.Exited msg, w)
         ∧ (msg = no_tools_msg ∨ msg = no_compiler_msg).
Proof.
  intros Hsel Hempty. rewrite (cmd_menu_step _ _ _ _ _ _ _ _ _ Hsel) by done.
  unfold Menu.menu_action. cbn [String.eqb Ascii.eqb Bool.eqb andb].
  rewrite cmd_build_unfold.
  destruct (find_cc_cases h w) as [(cc & -> & _) | (_ & _ & ->)].
  - cbv beta iota. rewrite Hempty. eauto.
  - eauto.
Qed.

Lemma cmd_menu_build_dies_witness :
  Menu.menu_select [106%Z; 13%Z] "" = Some ("build", None)
  ∧ list_tools Examples.empty_world = []
  ∧ ∃ msg, Menu.cmd_menu Examples.host_gcc Cases.show
             [Menu.Keys [106%Z; 13%Z] "" true; Menu.Keys [10%Z] "ping" true]
             Examples.empty_world
           = (Menu.Exited msg, Examples.empty_world)
           ∧ (msg = no_tools_msg ∨ msg = no_compiler_msg).
Proof.
  split; [vm_compute; reflexivity|]. split; [vm_compute; reflexivity|].
  apply (cmd_menu_build_dies Examples.host_gcc Cases.show [106%Z; 13%Z] "" true
           [Menu.Keys [10%Z] "ping" true] Examples.empty_world);
    vm_compute; reflexivity.
Defined.

(** X14: in the menu, a failing compiler does not end the program:
    the [CalledProcessError] of [cmd_build] is caught and printed, and
    the menu goes on from the world that the failed build left; the
    entry points in [bin/] are those from before. *)
Theorem cmd_menu_compile_error_continues (h : host) (show : exn → string)
    (keys : list Z) (typed : string) (ttys : list Menu.tty) (w : world) (cc : string) :
  Menu.menu_select keys typed = Some ("build", None) →
  find_cc h w = (Ok cc, w) →
  list_tools w ≠ [] →
  is_Some (pick_tmp (tmp_names h) (build_dir w)) →
  build_dir w !! "main.c" ≠ Some Dir →
  plain_output w (BUILD // APP_NAME) →
  cc_run h (build_cmd h cc (list_tools w)) (before_compile w) = CompileError
  ∨ cc_run h (build_cmd h cc (list_tools w)) (before_compile w) = LinkError →
  fst (cmd_build h w) = Raised CalledProcessError
  ∧ Menu.cmd_menu h show (Menu.Keys keys typed true :: ttys) w
    = Menu.cmd_menu h show ttys (snd (print (show CalledProcessError) (snd (cmd_build h w))))
  ∧ bin_dir (snd (print (show CalledProcessError) (snd (cmd_build h w)))) = bin_dir w.
Proof.
  intros Hsel Hcc Hts Hpick Hdir Hplain Hrun.
  destruct (cmd_build_compile_failure_run h w cc Hcc Hts Hpick Hdir Hrun) as [Hfst Hsnd].
  split; [done|]. split.
  - rewrite (cmd_menu_step _ _ _ _ _ _ _ _ _ Hsel) by done.
    unfold Menu.menu_action. cbn [String.eqb Ascii.eqb Bool.eqb andb].
    destruct (cmd_build h w) as [o w']. cbn [fst snd] in *. by subst o.
  - unfold print. cbn [snd bin_dir].
    destruct Hsnd as [-> | ->]; [done|].
    rewrite remove_output_plain by by apply plain_output_before_compile.
    by destruct w.
Qed.

Lemma strip_blank s : string_forallb Manager.is_space s = true → Manager.strip s = "".
Proof.
  unfold Manager.strip. induction s as [|c s IH]; [done|].
  simpl. intros [-> Hs]%andb_true_iff. by apply IH.
Qed.

(** X15: when Create tool is chosen and the name prompt is answered
    with blanks only (or nothing), no name reaches [cmd_create]: one line
    is printed, no file changes, and the menu goes on. *)
Theorem cmd_menu_blank_name (h : host) (show : exn → string) (keys : list Z)
    (typed : string) (ttys : list Menu.tty) (w : world) :
  Menu.select_index keys 0 = Some 0%Z →
  string_forallb Manager.is_space typed = true →
  Menu.cmd_menu h show (Menu.Keys keys typed true :: ttys) w
  = Menu.cmd_menu h show ttys (snd (print "No tool name provided." w)).
Proof.
  intros Hidx Hblank.
  assert (Menu.menu_select keys typed = Some ("create", None)) as Hsel.
  { unfold Menu.menu_select. rewrite Hidx. cbn. by rewrite (strip_blank typed Hblank). }
  by rewrite (cmd_menu_step _ _ _ _ _ _ _ _ _ Hsel).
Qed.

(* ===================================================================== *)
(** * More on manager.py *)
(* ===================================================================== *)

Lemma not_there_not_exists w p : lstat w p = None → path_exists w p = false.
Proof. intros H. unfold path_exists, stat. simpl. by rewrite H. Qed.

(** [create_tool] on a valid name whose module file is absent. *)
Lemma create_tool_ok line w :
  Manager.is_valid_tool_name (Manager.strip line) = true →
  tools_dir w !! (Manager.strip line ++ ".c") = None →
  Manager.create_tool line w
  = (Ok tt,
     World (<[Manager.strip line ++ ".c" := File (Manager.tool_source (Manager.strip line))]>
              (tools_dir w))
           (build_dir w) (bin_dir w) (elsewhere w)
           (console w ++ ["Tool " ++ Manager.strip line ++ " created."])).
Proof.
  intros Hv Hnew. unfold Manager.create_tool, bind, get. rewrite Hv.
  cbn [negb]. cbv beta.
  rewrite (not_there_not_exists w (TOOLS // (Manager.strip line ++ ".c")) Hnew).
  unfold Manager.write_in_place, MAXSYMLINKS. cbn [Manager.final_path].
  unfold lstat at 1. cbn [parent name get_dir]. rewrite Hnew.
  unfold lstat. cbn [parent name get_dir]. by rewrite Hnew.
Qed.




Lemma drop2_module_file n : Manager.drop2 (n ++ ".c") = n.
Proof.
  unfold Manager.drop2. rewrite length_append. simpl.
  replace (String.length n + 2 - 2) with (String.length n) by lia.
  apply substring_app_prefix.
Qed.

(** X17: in manager.py, a tool that [create_tool] made is found by the
    listing of [construct]: the new listing is the old one with the name
    added, in order. *)
Theorem create_tool_then_gather (line : string) (w w' : world) :
  Manager.is_valid_tool_name (Manager.strip line) = true →
  tools_dir w !! (Manager.strip line ++ ".c") = None →
  Manager.create_tool line w = (Ok tt, w') →
  Manager.strip line ∈ Manager.gather w'
  ∧ Manager.gather w' ≡ₚ Manager.strip line :: Manager.gather w
  ∧ StronglySorted String.le (Manager.gather w').
Proof.
  intros Hv Hnew. rewrite (create_tool_ok line w Hv Hnew). intros [= <-].
  set (n := Manager.strip line) in *.
  assert (Manager.gather
            (World (<[n ++ ".c" := File (Manager.tool_source n)]> (tools_dir w))
                   (build_dir w) (bin_dir w) (elsewhere w)
                   (console w ++ ["Tool " ++ n ++ " created."]))
          ≡ₚ n :: Manager.gather w) as Hperm.
  { unfold Manager.gather. cbn [tools_dir]. rewrite !sorted_perm.
    rewrite (map_to_list_insert (tools_dir w) (n ++ ".c") _ Hnew). simpl.
    rewrite filter_cons_True by by rewrite endswith_app, drop2_module_file, Hv.
    by rewrite fmap_cons, drop2_module_file. }
  split; [rewrite Hperm; left|]. split; [done | apply sorted_strongly].
Qed.

Lemma create_tool_then_gather_witness :
  Manager.is_valid_tool_name (Manager.strip "Echo_2 ") = true
  ∧ tools_dir Examples.ping_world !! (Manager.strip "Echo_2 " ++ ".c") = None
  ∧ Manager.create_tool "Echo_2 " Examples.ping_world
    = (Ok tt, snd (Manager.create_tool "Echo_2 " Examples.ping_world))
  ∧ (Manager.strip "Echo_2 " ∈ Manager.gather (snd (Manager.create_tool "Echo_2 " Examples.ping_world))
     ∧ Manager.gather (snd (Manager.create_tool "Echo_2 " Examples.ping_world))
       ≡ₚ Manager.strip "Echo_2 " :: Manager.gather Examples.ping_world
     ∧ StronglySorted String.le
         (Manager.gather (snd (Manager.create_tool "Echo_2 " Examples.ping_world)))).
Proof.
  split; [reflexivity|]. split; [vm_compute; reflexivity|].
  split; [vm_compute; reflexivity|].
  apply (create_tool_then_gather "Echo_2 " Examples.ping_world);
    [reflexivity | vm_compute; reflexivity | vm_compute; reflexivity].
Defined.

(** X18: both [create_tool] and [unload_tool] validate the stripped
    input, and on a stripped string (no newline at the end) the validator
    of manager.py is exactly its grammar: a letter or an underscore
    followed by letters, digits and underscores. *)
Theorem is_valid_tool_name_on_stripped (line : string) :
  Manager.is_valid_tool_name (Manager.strip line) = true
  ↔ manager_ident (Manager.strip line).
Proof.
  rewrite is_valid_tool_name_iff. unfold manager_ident. split.
  - intros (c & r & [Hs | Hs] & Hc & Hr); [eauto|].
    by apply strip_no_trailing_newline in Hs.
  - intros (c & r & Hs & Hc & Hr). eauto 6.
Qed.

Lemma word_char_name_char c : word_char c = true → Manager.name_char c = true.
Proof.
  unfold word_char, Manager.name_char, Manager.name_start.
  destruct (is_lower c), (is_digit c), (is_underscore c), (is_upper c); done.
Qed.

(** X19: every name that [validate_tool] of toolbox.py accepts is
    accepted by [is_valid_tool_name] of manager.py: the lowercase
    grammar lies inside the mixed-case one, trailing newline included. *)
Theorem toolbox_names_valid_in_manager (s : string) :
  Re.re_match TOOL_RE s = true → Manager.is_valid_tool_name s = true.
Proof.
  rewrite TOOL_RE_match_iff, is_valid_tool_name_iff.
  assert (∀ t, ident t → ∃ c r, t = String c r ∧ Manager.name_start c = true
                                ∧ string_forallb Manager.name_char r = true) as Hid.
  { intros t (c & r & -> & Hc & Hr). exists c, r. split; [done|]. split.
    - unfold Manager.name_start. rewrite Hc. by destruct (is_upper c).
    - eapply string_forallb_impl; [|exact Hr]. apply word_char_name_char. }
  intros [(c & r & -> & ? & ?)%Hid | (t & -> & (c & r & -> & ? & ?)%Hid)]; eauto 6.
Qed.

Lemma toolbox_names_valid_in_manager_witness :
  Re.re_match TOOL_RE "ping_2" = true ∧ Manager.is_valid_tool_name "ping_2" = true.
Proof.
  split; [reflexivity|].
  apply (toolbox_names_valid_in_manager "ping_2"). reflexivity.
Defined.

(** Writing in place to a path that is absent or a regular file. *)
Lemma write_in_place_plain p data w :
  lstat w p = None ∨ (∃ d, lstat w p = Some (File d)) →
  Manager.write_in_place p data w
  = (Ok tt, set_dir (parent p) (<[name p := File data]> (get_dir (parent p) w)) w).
Proof.
  intros Hp. unfold Manager.write_in_place, MAXSYMLINKS.
  assert (Manager.final_path 40 w p = Some p) as ->.
  { cbn [Manager.final_path]. by destruct Hp as [-> | [d ->]]. }
  by destruct Hp as [-> | [d ->]].
Qed.

(** [construct], step by step. *)
Lemma construct_unfold h w :
  Manager.construct h w
  = match Manager.gather w with
    | [] => print "No tools found. Please 'Load' a tool first." (gathering w)
    | _ :: _ =>
        match Manager.write_in_place (BUILD // "main.c") (Manager.c_code (Manager.gather w))
                (gathering w) with
        | (Ok _, w1) =>
            match check_call h (gcc_cmd (Manager.gather w)) (ELSEWHERE // Manager.OUTPUT_BIN)
                    (snd (print "Compiling..." w1)) with
            | (Ok _, w2) => print ("Success! ./" ++ Manager.OUTPUT_BIN ++ " created.") w2
            | (Raised FileNotFoundError, w2) => print gcc_missing_msg w2
            | (Raised CalledProcessError, w2) => print gcc_failed_msg w2
            | r => r
            end
        | (Died m, w1) => (Died m, w1)
        | (Raised e, w1) => (Raised e, w1)
        end
    end.
Proof.
  unfold Manager.construct, bind, get.
  change (print "Gathering tools..." w) with (Ok tt, gathering w). cbv beta iota.
  change (Manager.gather (gathering w)) with (Manager.gather w).
  destruct (Manager.gather w) as [|t ts]; [done|].
  destruct (Manager.write_in_place _ _ _) as [[[]|m|e] w1]; [|done..].
  change (print "Compiling..." w1) with (Ok tt, snd (print "Compiling..." w1)).
  cbv beta iota. fold (gcc_cmd (t :: ts)). done.
Qed.

(** [construct] up to the compiler call, when [main.c] can be written
    where it is. *)
Lemma construct_to_compiler h w :
  Manager.gather w ≠ [] →
  plain_output w (BUILD // "main.c") →
  Manager.construct h w
  = match check_call h (gcc_cmd (Manager.gather w)) (ELSEWHERE // Manager.OUTPUT_BIN)
            (before_gcc w) with
    | (Ok _, w2) => print ("Success! ./" ++ Manager.OUTPUT_BIN ++ " created.") w2
    | (Raised FileNotFoundError, w2) => print gcc_missing_msg w2
    | (Raised CalledProcessError, w2) => print gcc_failed_msg w2
    | r => r
    end.
Proof.
  intros Hts Hmain. rewrite construct_unfold.
  destruct (Manager.gather w) as [|t ts] eqn:Hg; [done|].
  rewrite (write_in_place_plain (BUILD // "main.c") _ (gathering w)) by exact Hmain.
  unfold before_gcc. by rewrite Hg.
Qed.

(** X20: [construct] never ends in [die], and a compiler that exits
    with an error does not raise out of it: the [CalledProcessError] of
    [check_call] is caught and reported. A gcc that may not be executed
    is not caught: with a non-empty listing and [main.c] written, the
    [PermissionError] of [check_call] gets out. *)
Theorem construct_outcomes (h : host) (w : world) :
  (∀ msg, fst (Manager.construct h w) ≠ Died msg)
  ∧ fst (Manager.construct h w) ≠ Raised CalledProcessError
  ∧ (Manager.gather w ≠ [] →
     plain_output w (BUILD // "main.c") →
     cc_run h (gcc_cmd (Manager.gather w)) (before_gcc w) = NotExecutable →
     Manager.construct h w = (Raised PermissionError, before_gcc w)).
Proof.
  split; [|split].
  - intros msg. rewrite construct_unfold.
    destruct (Manager.gather w) as [|t ts]; [done|].
    unfold Manager.write_in_place.
    destruct (Manager.final_path _ _ _) as [q|]; [|done].
    destruct (lstat _ q) as [[]|]; [| |done|].
    all: unfold check_call; by destruct (cc_run h _ _).
  - rewrite construct_unfold.
    destruct (Manager.gather w) as [|t ts]; [done|].
    unfold Manager.write_in_place.
    destruct (Manager.final_path _ _ _) as [q|]; [|done].
    destruct (lstat _ q) as [[]|]; [| |done|].
    all: unfold check_call; by destruct (cc_run h _ _).
  - intros Hts Hmain Hrun. rewrite construct_to_compiler by done.
    unfold check_call. by rewrite Hrun.
Qed.

(** A gcc that may not be executed: [construct] writes [main.c], then
    the [PermissionError] ends the menu loop of manager.py. *)
Lemma construct_permission_denied :
  fst (Manager.construct Cases.host_denied Cases.built_world) = Raised PermissionError
  ∧ build_dir (snd (Manager.construct Cases.host_denied Cases.built_world)) !! "main.c"
    = Some (File (Manager.c_code ["ping"]))
  ∧ fst (ManagerLoop.main Cases.host_denied ["1"; "4"] Cases.built_world)
    = ManagerLoop.Crash PermissionError.
Proof. by vm_compute. Qed.

(** X21: when gcc cannot be found or exits with an error, [construct]
    on a non-empty listing (with [main.c] and [./toolbox] each absent or
    a regular file) still returns normally: the dispatcher source is
    written and one line reports the failure; registry and [bin/] are as
    they were. No binary is made: an earlier [./toolbox] stays when gcc
    is missing or rejects a source file, and is removed by a failing
    link. *)
Theorem construct_compile_failure (h : host) (w : world) :
  Manager.gather w ≠ [] →
  plain_output w (BUILD // "main.c") →
  plain_output w (ELSEWHERE // Manager.OUTPUT_BIN) →
  cc_run h (gcc_cmd (Manager.gather w)) (before_gcc w) = NotFound
  ∨ cc_run h (gcc_cmd (Manager.gather w)) (before_gcc w) = CompileError
  ∨ cc_run h (gcc_cmd (Manager.gather w)) (before_gcc w) = LinkError →
  ∃ w',
    Manager.construct h w = (Ok tt, w')
    ∧ tools_dir w' = tools_dir w
    ∧ build_dir w' = <["main.c" := File (Manager.c_code (Manager.gather w))]> (build_dir w)
    ∧ bin_dir w' = bin_dir w
    ∧ ((cc_run h (gcc_cmd (Manager.gather w)) (before_gcc w) = NotFound
        ∧ elsewhere w' = elsewhere w
        ∧ console w' = (console (before_gcc w) ++ [gcc_missing_msg])%list)
       ∨ (cc_run h (gcc_cmd (Manager.gather w)) (before_gcc w) = CompileError
          ∧ elsewhere w' = elsewhere w
          ∧ console w' = (console (before_gcc w) ++ [gcc_failed_msg])%list)
       ∨ (cc_run h (gcc_cmd (Manager.gather w)) (before_gcc w) = LinkError
          ∧ elsewhere w' = delete Manager.OUTPUT_BIN (elsewhere w)
          ∧ console w' = (console (before_gcc w) ++ [gcc_failed_msg])%list)).
Proof.
  intros Hts Hmain Hout Hrun. rewrite construct_to_compiler by done.
  unfold check_call.
  destruct Hrun as [Hrun | [Hrun | Hrun]]; rewrite Hrun.
  - eexists. split; [reflexivity|]. cbn [tools_dir build_dir bin_dir elsewhere console before_gcc].
    split; [done|]. split; [done|]. split; [done|]. left. done.
  - eexists. split; [reflexivity|]. cbn [tools_dir build_dir bin_dir elsewhere console before_gcc].
    split; [done|]. split; [done|]. split; [done|]. right. left. done.
  - rewrite remove_output_plain by exact Hout.
    eexists. split; [reflexivity|].
    cbn [parent name get_dir set_dir tools_dir build_dir bin_dir elsewhere console before_gcc].
    split; [done|]. split; [done|]. split; [done|]. right. right. done.
Qed.






(* ===================================================================== *)
(** * The bootstrap and the command line of toolbox.py *)
(* ===================================================================== *)

(** X23: when [ensure_venv] replaces the process, the new process is
    the venv's python on the same arguments, in the same environment
    with the flag set; there [ensure_venv] returns at once, whatever the
    state of the venv, so the program is started again at most once. *)
Theorem ensure_venv_reexec_once (h : host) (mkvenv : list string → world → option world)
    (pr : Bootstrap.process) (w w' : world) (p : string) (av : list string)
    (env : gmap string string) :
  Bootstrap.ensure_venv h mkvenv pr w = (Bootstrap.Execve p av env, w') →
  p = Bootstrap.python_str h
  ∧ av = p :: Bootstrap.sys_argv pr
  ∧ env = <[Bootstrap.VENV_FLAG := "1"]> (Bootstrap.environ pr)
  ∧ ∀ pr' mkvenv' w'',
      Bootstrap.environ pr' = env →
      Bootstrap.ensure_venv h mkvenv' pr' w'' = (Bootstrap.Proceed, w'').
Proof.
  unfold Bootstrap.ensure_venv at 1.
  destruct (decide (Bootstrap.environ pr !! Bootstrap.VENV_FLAG = Some "1")); [done|].
  cbv zeta.
  destruct (if path_exists w _ then _ else _) as [wm|]; [|done].
  destruct (path_exists wm _); [|done].
  intros [= <- <- <- <-]. split; [done|]. split; [done|]. split; [done|].
  intros pr' mkvenv' w'' Henv. unfold Bootstrap.ensure_venv.
  rewrite decide_True; [done|]. rewrite Henv. apply lookup_insert_eq.
Qed.

Lemma ensure_venv_reexec_once_witness :
  Bootstrap.ensure_venv Examples.host_gcc Cases.mkvenv_ok Cases.fresh_process
    Examples.ping_world
  = (Bootstrap.Execve (Bootstrap.python_str Examples.host_gcc)
       (Bootstrap.python_str Examples.host_gcc :: Bootstrap.sys_argv Cases.fresh_process)
       (<[Bootstrap.VENV_FLAG := "1"]> (Bootstrap.environ Cases.fresh_process)),
     snd (Bootstrap.ensure_venv Examples.host_gcc Cases.mkvenv_ok Cases.fresh_process
            Examples.ping_world))
  ∧ (Bootstrap.python_str Examples.host_gcc = Bootstrap.python_str Examples.host_gcc
     ∧ Bootstrap.python_str Examples.host_gcc :: Bootstrap.sys_argv Cases.fresh_process
       = Bootstrap.python_str Examples.host_gcc :: Bootstrap.sys_argv Cases.fresh_process
     ∧ <[Bootstrap.VENV_FLAG := "1"]> (Bootstrap.environ Cases.fresh_process)
       = <[Bootstrap.VENV_FLAG := "1"]> (Bootstrap.environ Cases.fresh_process)
     ∧ ∀ pr' mkvenv' w'',
         Bootstrap.environ pr'
         = <[Bootstrap.VENV_FLAG := "1"]> (Bootstrap.environ Cases.fresh_process) →
         Bootstrap.ensure_venv Examples.host_gcc mkvenv' pr' w'' = (Bootstrap.Proceed, w'')).
Proof.
  split; [vm_compute; reflexivity|].
  apply (ensure_venv_reexec_once Examples.host_gcc Cases.mkvenv_ok Cases.fresh_process
           Examples.ping_world
           (snd (Bootstrap.ensure_venv Examples.host_gcc Cases.mkvenv_ok Cases.fresh_process
                   Examples.ping_world))).
  vm_compute; reflexivity.
Defined.



(* ===================================================================== *)
(** * The added statements at concrete inputs *)
(* ===================================================================== *)

Lemma cmd_build_compile_failure_witness :
  find_cc Cases.host_failing Examples.stale_world = (Ok "/usr/bin/gcc", Examples.stale_world)
  ∧ list_tools Examples.stale_world ≠ []
  ∧ is_Some (pick_tmp (tmp_names Cases.host_failing) (build_dir Examples.stale_world))
  ∧ build_dir Examples.stale_world !! "main.c" ≠ Some Dir
  ∧ plain_output Examples.stale_world (BUILD // APP_NAME)
  ∧ (cc_run Cases.host_failing
       (build_cmd Cases.host_failing "/usr/bin/gcc" (list_tools Examples.stale_world))
       (before_compile Examples.stale_world) = CompileError
     ∨ cc_run Cases.host_failing
         (build_cmd Cases.host_failing "/usr/bin/gcc" (list_tools Examples.stale_world))
         (before_compile Examples.stale_world) = LinkError)
  ∧ (fst (cmd_build Cases.host_failing Examples.stale_world) = Raised CalledProcessError
     ∧ tools_dir (snd (cmd_build Cases.host_failing Examples.stale_world))
       = tools_dir Examples.stale_world
     ∧ bin_dir (snd (cmd_build Cases.host_failing Examples.stale_world))
       = bin_dir Examples.stale_world
     ∧ elsewhere (snd (cmd_build Cases.host_failing Examples.stale_world))
       = elsewhere Examples.stale_world
     ∧ build_dir (snd (cmd_build Cases.host_failing Examples.stale_world)) !! "main.c"
       = Some (File (dispatcher_template (list_tools Examples.stale_world)))
     ∧ (∀ f, f ≠ "main.c" → f ≠ APP_NAME →
             build_dir (snd (cmd_build Cases.host_failing Examples.stale_world)) !! f
             = build_dir Examples.stale_world !! f)
     ∧ (cc_run Cases.host_failing
          (build_cmd Cases.host_failing "/usr/bin/gcc" (list_tools Examples.stale_world))
          (before_compile Examples.stale_world) = CompileError →
        build_dir (snd (cmd_build Cases.host_failing Examples.stale_world)) !! APP_NAME
        = build_dir Examples.stale_world !! APP_NAME)
     ∧ (cc_run Cases.host_failing
          (build_cmd Cases.host_failing "/usr/bin/gcc" (list_tools Examples.stale_world))
          (before_compile Examples.stale_world) = LinkError →
        build_dir (snd (cmd_build Cases.host_failing Examples.stale_world)) !! APP_NAME
        = None)).
Proof.
  assert (list_tools Examples.stale_world ≠ []) as H2 by (vm_compute; discriminate).
  assert (is_Some (pick_tmp (tmp_names Cases.host_failing) (build_dir Examples.stale_world)))
    as H3 by (vm_compute; eexists; reflexivity).
  assert (build_dir Examples.stale_world !! "main.c" ≠ Some Dir) as H4
    by (vm_compute; discriminate).
  assert (plain_output Examples.stale_world (BUILD // APP_NAME)) as H5
    by (right; exists "ELF0"; vm_compute; reflexivity).
  assert (cc_run Cases.host_failing
            (build_cmd Cases.host_failing "/usr/bin/gcc" (list_tools Examples.stale_world))
            (before_compile Examples.stale_world) = CompileError
          ∨ cc_run Cases.host_failing
              (build_cmd Cases.host_failing "/usr/bin/gcc" (list_tools Examples.stale_world))
              (before_compile Examples.stale_world) = LinkError) as H6
    by (right; reflexivity).
  split; [reflexivity|]. split; [exact H2|]. split; [exact H3|]. split; [exact H4|].
  split; [exact H5|]. split; [exact H6|].
  exact (cmd_build_compile_failure Cases.host_failing Examples.stale_world "/usr/bin/gcc"
           eq_refl H2 H3 H4 H5 H6).
Defined.



Lemma cmd_menu_compile_error_continues_witness :
  Menu.menu_select [106%Z; 13%Z] "" = Some ("build", None)
  ∧ find_cc Cases.host_failing Examples.stale_world = (Ok "/usr/bin/gcc", Examples.stale_world)
  ∧ list_tools Examples.stale_world ≠ []
  ∧ is_Some (pick_tmp (tmp_names Cases.host_failing) (build_dir Examples.stale_world))
  ∧ build_dir Examples.stale_world !! "main.c" ≠ Some Dir
  ∧ plain_output Examples.stale_world (BUILD // APP_NAME)
  ∧ (cc_run Cases.host_failing
       (build_cmd Cases.host_failing "/usr/bin/gcc" (list_tools Examples.stale_world))
       (before_compile Examples.stale_world) = CompileError
     ∨ cc_run Cases.host_failing
         (build_cmd Cases.host_failing "/usr/bin/gcc" (list_tools Examples.stale_world))
         (before_compile Examples.stale_world) = LinkError)
  ∧ (fst (cmd_build Cases.host_failing Examples.stale_world) = Raised CalledProcessError
     ∧ Menu.cmd_menu Cases.host_failing Cases.show
         [Menu.Keys [106%Z; 13%Z] "" true; Menu.Keys [107%Z; 10%Z] "" true]
         Examples.stale_world
       = Menu.cmd_menu Cases.host_failing Cases.show [Menu.Keys [107%Z; 10%Z] "" true]
           (snd (print (Cases.show CalledProcessError)
                   (snd (cmd_build Cases.host_failing Examples.stale_world))))
     ∧ bin_dir (snd (print (Cases.show CalledProcessError)
                       (snd (cmd_build Cases.host_failing Examples.stale_world))))
       = bin_dir Examples.stale_world).
Proof.
  assert (list_tools Examples.stale_world ≠ []) as H2 by (vm_compute; discriminate).
  assert (is_Some (pick_tmp (tmp_names Cases.host_failing) (build_dir Examples.stale_world)))
    as H3 by (vm_compute; eexists; reflexivity).
  assert (build_dir Examples.stale_world !! "main.c" ≠ Some Dir) as H4
    by (vm_compute; discriminate).
  assert (plain_output Examples.stale_world (BUILD // APP_NAME)) as H5
    by (right; exists "ELF0"; vm_compute; reflexivity).
  assert (cc_run Cases.host_failing
            (build_cmd Cases.host_failing "/usr/bin/gcc" (list_tools Examples.stale_world))
            (before_compile Examples.stale_world) = CompileError
          ∨ cc_run Cases.host_failing
              (build_cmd Cases.host_failing "/usr/bin/gcc" (list_tools Examples.stale_world))
              (before_compile Examples.stale_world) = LinkError) as H6
    by (right; reflexivity).
  split; [reflexivity|]. split; [reflexivity|]. split; [exact H2|]. split; [exact H3|].
  split; [exact H4|]. split; [exact H5|]. split; [exact H6|].
  exact (cmd_menu_compile_error_continues Cases.host_failing Cases.show [106%Z; 13%Z] ""
           [Menu.Keys [107%Z; 10%Z] "" true] Examples.stale_world "/usr/bin/gcc"
           eq_refl eq_refl H2 H3 H4 H5 H6).
Defined.

Lemma cmd_menu_blank_name_witness :
  Menu.select_index [120%Z; 13%Z] 0 = Some 0%Z
  ∧ string_forallb Manager.is_space "   " = true
  ∧ Menu.cmd_menu Examples.host_gcc Cases.show
      [Menu.Keys [120%Z; 13%Z] "   " true; Menu.NoTui "setupterm"] Examples.ping_world
    = Menu.cmd_menu Examples.host_gcc Cases.show [Menu.NoTui "setupterm"]
        (snd (print "No tool name provided." Examples.ping_world)).
Proof.
  split; [reflexivity|]. split; [reflexivity|].
  exact (cmd_menu_blank_name Examples.host_gcc Cases.show [120%Z; 13%Z] "   "
           [Menu.NoTui "setupterm"] Examples.ping_world eq_refl eq_refl).
Defined.

Lemma construct_compile_failure_witness :
  Manager.gather Cases.built_world ≠ []
  ∧ plain_output Cases.built_world (BUILD // "main.c")
  ∧ plain_output Cases.built_world (ELSEWHERE // Manager.OUTPUT_BIN)
  ∧ (cc_run Cases.host_failing (gcc_cmd (Manager.gather Cases.built_world))
       (before_gcc Cases.built_world) = NotFound
     ∨ cc_run Cases.host_failing (gcc_cmd (Manager.gather Cases.built_world))
         (before_gcc Cases.built_world) = CompileError
     ∨ cc_run Cases.host_failing (gcc_cmd (Manager.gather Cases.built_world))
         (before_gcc Cases.built_world) = LinkError)
  ∧ ∃ w',
      Manager.construct Cases.host_failing Cases.built_world = (Ok tt, w')
      ∧ tools_dir w' = tools_dir Cases.built_world
      ∧ build_dir w'
        = <["main.c" := File (Manager.c_code (Manager.gather Cases.built_world))]>
            (build_dir Cases.built_world)
      ∧ bin_dir w' = bin_dir Cases.built_world
      ∧ ((cc_run Cases.host_failing (gcc_cmd (Manager.gather Cases.built_world))
            (before_gcc Cases.built_world) = NotFound
          ∧ elsewhere w' = elsewhere Cases.built_world
          ∧ console w' = (console (before_gcc Cases.built_world) ++ [gcc_missing_msg])%list)
         ∨ (cc_run Cases.host_failing (gcc_cmd (Manager.gather Cases.built_world))
              (before_gcc Cases.built_world) = CompileError
            ∧ elsewhere w' = elsewhere Cases.built_world
            ∧ console w' = (console (before_gcc Cases.built_world) ++ [gcc_failed_msg])%list)
         ∨ (cc_run Cases.host_failing (gcc_cmd (Manager.gather Cases.built_world))
              (before_gcc Cases.built_world) = LinkError
            ∧ elsewhere w' = delete Manager.OUTPUT_BIN (elsewhere Cases.built_world)
            ∧ console w' = (console (before_gcc Cases.built_world) ++ [gcc_failed_msg])%list)).
Proof.
  assert (Manager.gather Cases.built_world ≠ []) as H1 by (vm_compute; discriminate).
  assert (plain_output Cases.built_world (BUILD // "main.c")) as H2
    by (left; vm_compute; reflexivity).
  assert (plain_output Cases.built_world (ELSEWHERE // Manager.OUTPUT_BIN)) as H3
    by (right; exists "ELF0"; vm_compute; reflexivity).
  assert (cc_run Cases.host_failing (gcc_cmd (Manager.gather Cases.built_world))
            (before_gcc Cases.built_world) = NotFound
          ∨ cc_run Cases.host_failing (gcc_cmd (Manager.gather Cases.built_world))
              (before_gcc Cases.built_world) = CompileError
          ∨ cc_run Cases.host_failing (gcc_cmd (Manager.gather Cases.built_world))
              (before_gcc Cases.built_world) = LinkError) as H4
    by (right; right; reflexivity).
  split; [exact H1|]. split; [exact H2|]. split; [exact H3|]. split; [exact H4|].
  exact (construct_compile_failure Cases.host_failing Cases.built_world H1 H2 H3 H4).
Defined.
